(** * Fraud-investigation agents: a shallow embedding

    The development follows the Python sources

    - [src/utils/llm_client.py]           (class [LLMClient]),
    - [src/agents/investigation_agent.py] (class [InvestigationAgent]),
    - [src/agents/explanation_agent.py]   (class [ExplanationAgent]).

    Python values that travel through the agents are dynamically typed, so
    they are embedded as one inductive type [value]; a row of a table and
    the result of [Series.to_dict()] are finite maps from column names to
    values.  Exceptions are explicit: every operation that can raise
    returns an [outcome]. *)

From Stdlib Require Import ZArith QArith Qabs Ascii String List.
From stdpp Require Import base option list gmap strings pretty sorting.

Local Open Scope string_scope.
Local Open Scope Z_scope.
Local Open Scope list_scope.

(** ** Python values and exceptions *)

Module Py.

(** The exceptions the modelled code can raise.  [DatabaseError] and
    [APIError] come from the two external services. *)
Inductive exn : Type :=
  | KeyError (key : string)
  | TypeError
  | ValueError
  | AttributeError
  | DatabaseError
  | APIError.

(** Result of running a piece of Python.  [Unmodelled] marks behaviour that
    lies outside the fragment covered here (the shortest-digits [repr] of a
    float, a SQL statement whose text is altered by a quote inside an
    interpolated key); nothing is claimed about such runs. *)
Inductive outcome (A : Type) : Type :=
  | Ok (a : A)
  | Raise (e : exn)
  | Unmodelled.
Arguments Ok {A} a.
Arguments Raise {A} e.
Arguments Unmodelled {A}.

Definition obind {A B} (o : outcome A) (k : A -> outcome B) : outcome B :=
  match o with
  | Ok a => k a
  | Raise e => Raise e
  | Unmodelled => Unmodelled
  end.

(** A value as it comes out of [pandas.read_sql_query(...).iloc[0].to_dict()]:
    [None], an integer, a finite float (every finite binary float is a
    rational), NaN, or a string. *)
Inductive value : Type :=
  | VNone
  | VInt (z : Z)
  | VFloat (q : Q)
  | VNaN
  | VStr (s : string).

Abbreviation dict := (gmap string value).

(** [str(v)], as used by a bare replacement field such as "{v}" in an
    f-string.  A float that holds a whole number below 10^16 prints as
    its digits followed by ".0"; the shortest-digits [repr] of the other
    floats is outside the fragment. *)
Definition whole (q : Q) : bool :=
  (Qden (Qred q) =? 1)%positive && (Z.abs (Qnum (Qred q)) <? 10 ^ 16).

Definition str (v : value) : outcome string :=
  match v with
  | VNone => Ok "None"
  | VInt z => Ok (pretty z)
  | VFloat q =>
      if whole q then Ok (pretty (Qnum (Qred q)) +:+ ".0") else Unmodelled
  | VNaN => Ok "nan"
  | VStr s => Ok s
  end.

(** *** Fixed-point formatting: the format specs ",.2f" and ".2f" *)

(** Insert a comma before every group of three digits, counted from the
    right: the "," option of the format mini-language. *)
Fixpoint group3_rev (ds : list ascii) : list ascii :=
  match ds with
  | a :: b :: c :: ((_ :: _) as rest) => a :: b :: c :: ","%char :: group3_rev rest
  | _ => ds
  end.

Definition group_thousands (digits : string) : string :=
  string_of_list_ascii
    (rev (group3_rev (rev (list_ascii_of_string digits)))).

Definition two_digits (n : Z) : string :=
  if n <? 10 then "0" +:+ pretty n else pretty n.

(** Nearest integer to [q], ties to the even neighbour: the rounding of the
    "f" presentation type, which converts the exact binary value. *)
Definition round_half_even (q : Q) : Z :=
  let n := Qnum q in
  let d := Z.pos (Qden q) in
  let fl := n / d in
  let r := n mod d in
  match 2 * r ?= d with
  | Lt => fl
  | Gt => fl + 1
  | Eq => if Z.even fl then fl else fl + 1
  end.

(** The digits of a non-negative number of hundredths, with two decimals. *)
Definition fixed2 (grouped : bool) (hundredths : Z) : string :=
  let int_part := pretty (hundredths / 100) in
  (if grouped then group_thousands int_part else int_part)
    +:+ "." +:+ two_digits (hundredths mod 100).

(** [format(v, ",.2f")] and [format(v, ".2f")].  An integer is turned
    into a float first, which up to 2^53 loses nothing; larger integers
    are outside the fragment. *)
Definition format_f2 (grouped : bool) (v : value) : outcome string :=
  match v with
  | VInt z =>
      if Z.abs z <=? 2 ^ 53
      then Ok ((if z <? 0 then "-" else "") +:+ fixed2 grouped (Z.abs z * 100))
      else Unmodelled
  | VFloat q =>
      Ok ((if Qnum q <? 0 then "-" else "")
            +:+ fixed2 grouped (round_half_even (Qabs q * 100)))
  | VNaN => Ok "nan"
  | VNone => Raise TypeError
  | VStr _ => Raise ValueError
  end.

(** *** Subscripting and [dict.get] *)

(** [o[key]] where [o] is either a dict or [None]. *)
Definition subscript (o : option dict) (key : string) : outcome value :=
  match o with
  | None => Raise TypeError
  | Some d =>
      match d !! key with
      | Some v => Ok v
      | None => Raise (KeyError key)
      end
  end.

(** [d.get(key, default)]. *)
Definition get (d : dict) (key : string) (default : value) : value :=
  match d !! key with
  | Some v => v
  | None => default
  end.

(** [o.get(key, default)] where [o] is either a dict or [None]. *)
Definition opt_get (o : option dict) (key : string) (default : value)
    : outcome value :=
  match o with
  | None => Raise AttributeError
  | Some d => Ok (get d key default)
  end.

(** *** f-strings *)

(** An f-string is a sequence of literal pieces and replacement fields,
    evaluated left to right; the first field that raises aborts the whole
    expression. *)
Fixpoint fstring (parts : list (outcome string)) : outcome string :=
  match parts with
  | [] => Ok ""
  | p :: rest =>
      obind p (fun s => obind (fstring rest) (fun r => Ok (s +:+ r)))
  end.

Definition lit (s : string) : outcome string := Ok s.

(** "{e}" *)
Definition fld (e : outcome value) : outcome string := obind e str.

(** "{e:,.2f}" and "{e:.2f}" *)
Definition fld_f2 (grouped : bool) (e : outcome value) : outcome string :=
  obind e (format_f2 grouped).

End Py.

Import Py.

Definition nl : string := String "010"%char "".

(** ** The data source

    The SQLite file is read-only for the agents.  A table is the list of
    its rows in scan order; a row maps column names to values.  The table
    definitions are not part of the Python sources: the columns are those
    the queries and the prompt templates name. *)

Module Sql.

Abbreviation row := (gmap string value).

Record database : Type := {
  claims : list row;
  providers : list row;
  patients : list row;
  fraud_flags : list row
}.

(** The characters a number can be written with: digits, signs, the
    point, the exponent letter and blanks. *)
Definition numeral_char (c : ascii) : bool :=
  let n := N_of_ascii c in
  ((n <=? 32) || (48 <=? n) && (n <=? 57) || (n =? 43) || (n =? 45) || (n =? 46)
   || (n =? 69) || (n =? 101))%N.

(** A text that the engine may read as a number when it compares it
    with a column of numeric affinity: it holds a digit and nothing but
    numeral characters.  Every text the engine does convert is of this
    kind. *)
Definition numeral_like (key : string) : bool :=
  let cs := list_ascii_of_string key in
  existsb (fun c => (48 <=? N_of_ascii c) && (N_of_ascii c <=? 57))%N cs
  && forallb numeral_char cs.

(** A key that contains no single quote leaves the statement around it
    intact when it is pasted between quotes, and a key that is not
    written like a number stays a text whatever the affinity of the
    column: [col = 'key'] then holds of the text cells equal to [key] and
    of no other cell.  Keys that are not [plain] are outside the fragment
    covered here. *)
Definition plain (key : string) : bool :=
  forallb (fun c => negb (Ascii.eqb c "'"%char)) (list_ascii_of_string key)
  && negb (numeral_like key).

(** [WHERE col = 'key'] *)
Definition col_is (col key : string) (r : row) : bool :=
  match r !! col with
  | Some (VStr s) => String.eqb s key
  | _ => false
  end.

Definition rows_where (col key : string) (table : list row) : list row :=
  filter (fun r => col_is col key r) table.


(** The collating order of stored values: NULL first, then numbers by
    value, then text byte by byte. *)
Inductive sort_key : Type :=
  | KNull
  | KNum (q : Q)
  | KText (s : string).

Definition key_of (v : option value) : sort_key :=
  match v with
  | Some (VInt z) => KNum (inject_Z z)
  | Some (VFloat q) => KNum q
  | Some (VStr s) => KText s
  | _ => KNull
  end.

Definition key_leb (a b : sort_key) : bool :=
  match a, b with
  | KNull, _ => true
  | KNum _, KNull => false
  | KNum p, KNum q => Qle_bool p q
  | KNum _, KText _ => true
  | KText _, KNull => false
  | KText _, KNum _ => false
  | KText s, KText t => String.leb s t
  end.

(** [ORDER BY col DESC].  SQL leaves the relative order of rows with equal
    keys open, and the engine's choice changes with its query plan; this
    insertion sort keeps them in scan order, which is one of the orders
    the engine may choose.  What is stated about a ranking below holds of
    every such order. *)
Fixpoint insert_desc (col : string) (x : row) (l : list row) : list row :=
  match l with
  | [] => [x]
  | y :: l' =>
      if key_leb (key_of (y !! col)) (key_of (x !! col))
      then x :: y :: l'
      else y :: insert_desc col x l'
  end.

Definition order_by_desc (col : string) (l : list row) : list row :=
  foldr (insert_desc col) [] l.

(** [LIMIT n]: a negative bound means no bound. *)
Definition limit_rows (n : Z) (l : list row) : list row :=
  if n <? 0 then l else take (Z.to_nat n) l.

(** The select list: the named columns of a row; a NULL stays a NULL.
    The tables are taken to have the columns a statement names (see
    [schema_ok]); a statement that names a column its table lacks is
    refused by the engine and is not covered. *)
Definition project (cols : list string) (r : row) : row :=
  filter (fun kv => bool_decide (kv.1 ∈ cols)) r.

End Sql.

Import Sql.

(** ** Running the agents

    An agent run reads the database and the completion service and leaves
    behind the SQL texts and the completion requests it has submitted. *)

Record message : Type := { role : string; content : string }.

Record request : Type := {
  req_model : string;
  req_messages : list message;
  req_temperature : Q
}.

(** What a run depends on: the database file, the configured model name
    and the completion service, which answers the [n]-th request with a
    text (or [None]) or fails. *)
Record env : Type := {
  db : database;
  model : string;
  backend : nat -> request -> outcome value
}.

Record trace : Type := {
  queries : list string;
  requests : list request
}.

Definition M (A : Type) : Type := env -> trace -> outcome A * trace.

Definition ret {A} (a : A) : M A := fun _ t => (Ok a, t).

Definition bind {A B} (m : M A) (k : A -> M B) : M B :=
  fun e t =>
    match m e t with
    | (Ok a, t') => k a e t'
    | (Raise x, t') => (Raise x, t')
    | (Unmodelled, t') => (Unmodelled, t')
    end.

Definition lift {A} (o : outcome A) : M A := fun _ t => (o, t).

Notation "x <- c1 ;; c2" := (bind c1 (fun x => c2))
  (at level 100, c1 at next level, right associativity).

(** [pd.read_sql_query(text, conn)]: the text goes to the engine; [rows]
    is what the statement denotes when the interpolated key is [plain]. *)
Definition add_query (text : string) (t : trace) : trace :=
  {| queries := queries t ++ [text]; requests := requests t |}.

Definition add_request (req : request) (t : trace) : trace :=
  {| queries := queries t; requests := requests t ++ [req] |}.

Definition read_sql_query (text : string) (key : string)
    (rows : database -> list row) : M (list row) :=
  fun e t =>
    (if plain key then Ok (rows (db e)) else Unmodelled, add_query text t).

(** [result.iloc[0].to_dict()] guarded by [len(result) == 0].  The cells
    of a table are the values as pandas hands them out for the result at
    hand; a result in which pandas widens the integers of a column to
    floats, because a later row holds a NULL there, is not covered. *)
Definition first_row (result : list row) : option dict := head result.

(** [result.iloc[0].to_dict() if len(result) > 0 else {}] *)
Definition first_row_or_empty (result : list row) : dict :=
  match result with
  | r :: _ => r
  | [] => ∅
  end.

(** The loop [out = []; for x in xs: out.append(body(x))]. *)
Fixpoint for_each {A B} (xs : list A) (body : A -> M B) : M (list B) :=
  match xs with
  | [] => ret []
  | x :: rest =>
      y <- body x ;;
      ys <- for_each rest body ;;
      ret (y :: ys)
  end.

(** ** [utils/llm_client.py] *)

Module LLMClient.

Definition default_temperature : Q := 7 # 10.

(** [self.client.chat.completions.create(...)] followed by
    [response.choices[0].message.content]. *)
Definition create (req : request) : M value :=
  fun e t => (backend e (length (requests t)) req, add_request req t).

(** [chat(self, messages, temperature=0.7)] *)
Definition chat (messages : list message) (temperature : option Q) : M value :=
  fun e t =>
    create {| req_model := model e;
              req_messages := messages;
              req_temperature := default default_temperature temperature |} e t.

Definition analyze_template (claim_data context : string) : string :=
  "You are a fraud detection expert. Analyze this claim:" +:+ nl +:+
  "        " +:+ nl +:+
  "Claim Data: " +:+ claim_data +:+ nl +:+
  "Context: " +:+ context +:+ nl +:+
  nl +:+
  "Provide:" +:+ nl +:+
  "1. Fraud likelihood score (1-10)" +:+ nl +:+
  "2. Key red flags" +:+ nl +:+
  "3. Investigation priority (Low/Medium/High)" +:+ nl.

(** [analyze_fraud(self, claim_data, context)] *)
Definition analyze_fraud (claim_data context : string) : M value :=
  let prompt := analyze_template claim_data context in
  let messages := [ {| role := "user"; content := prompt |} ] in
  chat messages (Some (3 # 10)).

End LLMClient.

(** ** [agents/investigation_agent.py] *)

Module InvestigationAgent.

(** The dict returned by the two context helpers. *)
Record context : Type := {
  summary : dict;
  recent_claims : list row
}.

Definition indent : string := "            ".

(** The f-strings assigned to [query], one per helper. *)
Definition claim_query (key : string) : string :=
  "SELECT * FROM claims WHERE claim_id = '" +:+ key +:+ "'".

Definition provider_query (key : string) : string :=
  "SELECT * FROM providers WHERE provider_id = '" +:+ key +:+ "'".

Definition provider_recent_query (key : string) : string :=
  nl +:+
  indent +:+ "SELECT claim_amount, claim_date, status, is_fraud" +:+ nl +:+
  indent +:+ "FROM claims" +:+ nl +:+
  indent +:+ "WHERE provider_id = '" +:+ key +:+ "'" +:+ nl +:+
  indent +:+ "ORDER BY claim_date DESC" +:+ nl +:+
  indent +:+ "LIMIT 10" +:+ nl +:+
  "        ".

Definition patient_query (key : string) : string :=
  "SELECT * FROM patients WHERE patient_id = '" +:+ key +:+ "'".

Definition patient_recent_query (key : string) : string :=
  nl +:+
  indent +:+ "SELECT claim_amount, claim_date, provider_specialty, is_fraud" +:+ nl +:+
  indent +:+ "FROM claims" +:+ nl +:+
  indent +:+ "WHERE patient_id = '" +:+ key +:+ "'" +:+ nl +:+
  indent +:+ "ORDER BY claim_date DESC" +:+ nl +:+
  indent +:+ "LIMIT 10" +:+ nl +:+
  "        ".

Definition fraud_flags_query (key : string) : string :=
  "SELECT * FROM fraud_flags WHERE claim_id = '" +:+ key +:+ "'".


(** The ten most recent claims of one provider or patient. *)
Definition recent (cols : list string) (col key : string) (d : database)
    : list row :=
  project cols
    <$> limit_rows 10 (order_by_desc "claim_date" (rows_where col key (claims d))).

(** [_get_claim_details(self, claim_id)] *)
Definition _get_claim_details (claim_id : value) : M (option dict) :=
  key <- lift (str claim_id) ;;
  result <- read_sql_query (claim_query key) key
              (fun d => rows_where "claim_id" key (claims d)) ;;
  ret (first_row result).

(** [_get_provider_context(self, provider_id)] *)
Definition _get_provider_context (provider_id : value) : M context :=
  key <- lift (str provider_id) ;;
  provider <- read_sql_query (provider_query key) key
                (fun d => rows_where "provider_id" key (providers d)) ;;
  recent_claims <- read_sql_query (provider_recent_query key) key
                     (recent ["claim_amount"; "claim_date"; "status"; "is_fraud"]
                        "provider_id" key) ;;
  ret {| summary := first_row_or_empty provider;
         recent_claims := recent_claims |}.

(** [_get_patient_context(self, patient_id)] *)
Definition _get_patient_context (patient_id : value) : M context :=
  key <- lift (str patient_id) ;;
  patient <- read_sql_query (patient_query key) key
               (fun d => rows_where "patient_id" key (patients d)) ;;
  recent_claims <- read_sql_query (patient_recent_query key) key
                     (recent ["claim_amount"; "claim_date"; "provider_specialty";
                              "is_fraud"] "patient_id" key) ;;
  ret {| summary := first_row_or_empty patient;
         recent_claims := recent_claims |}.

(** [_get_fraud_flags(self, claim_id)] *)
Definition _get_fraud_flags (claim_id : value) : M (option dict) :=
  key <- lift (str claim_id) ;;
  result <- read_sql_query (fraud_flags_query key) key
              (fun d => rows_where "claim_id" key (fraud_flags d)) ;;
  ret (first_row result).

(** [_build_investigation_prompt(self, claim, provider_ctx, patient_ctx,
    fraud_flags)]: one f-string. *)
Definition _build_investigation_prompt (claim : option dict)
    (provider_ctx patient_ctx : context) (fraud_flags : option dict)
    : outcome string :=
  let provider := summary provider_ctx in
  let patient := summary patient_ctx in
  fstring [
    lit "You are an expert fraud investigator analyzing an insurance claim flagged as potentially fraudulent.";
    lit nl; lit nl;
    lit "CLAIM DETAILS:"; lit nl;
    lit "- Claim ID: "; fld (subscript claim "claim_id"); lit nl;
    lit "- Amount: $"; fld_f2 true (subscript claim "claim_amount"); lit nl;
    lit "- Date: "; fld (subscript claim "claim_date"); lit nl;
    lit "- Provider: "; fld (subscript claim "provider_id");
    lit " ("; fld (subscript claim "provider_specialty"); lit ")"; lit nl;
    lit "- Procedure: "; fld (subscript claim "procedure_code"); lit nl;
    lit "- Diagnosis: "; fld (subscript claim "diagnosis_code"); lit nl;
    lit "- Status: "; fld (subscript claim "status"); lit nl;
    lit nl;
    lit "FRAUD FLAGS TRIGGERED:"; lit nl;
    lit "- Rules: "; fld (subscript fraud_flags "rules_triggered"); lit nl;
    lit "- Fraud Score: "; fld (subscript fraud_flags "fraud_score"); lit "/100"; lit nl;
    lit "- Explanation: "; fld (subscript fraud_flags "explanation"); lit nl;
    lit nl;
    lit "PROVIDER CONTEXT:"; lit nl;
    lit "- Total claims submitted: ";
    fld (Ok (get provider "total_claims" (VStr "N/A"))); lit nl;
    lit "- Average claim amount: $";
    fld_f2 true (Ok (get provider "avg_claim_amount" (VInt 0))); lit nl;
    lit "- Total billed: $";
    fld_f2 true (Ok (get provider "total_billed" (VInt 0))); lit nl;
    lit "- Previous fraud cases: ";
    fld (Ok (get provider "fraud_claims" (VInt 0))); lit nl;
    lit nl;
    lit "PATIENT CONTEXT:"; lit nl;
    lit "- Total claims: ";
    fld (Ok (get patient "total_claims" (VStr "N/A"))); lit nl;
    lit "- Total spent: $";
    fld_f2 true (Ok (get patient "total_spent" (VInt 0))); lit nl;
    lit "- Previous fraud cases: ";
    fld (Ok (get patient "fraud_claims" (VInt 0))); lit nl;
    lit nl;
    lit "CLAIM Z-SCORE: ";
    fld_f2 false (opt_get claim "amount_zscore" (VInt 0));
    lit " (higher = more unusual for specialty)"; lit nl;
    lit nl;
    lit "Based on this information, provide a concise fraud investigation report in the following format:";
    lit nl; lit nl;
    lit "FRAUD LIKELIHOOD: [1-10 score]"; lit nl;
    lit "KEY RED FLAGS: [2-3 specific concerns]"; lit nl;
    lit "INVESTIGATION PRIORITY: [Low/Medium/High/Critical]"; lit nl;
    lit "RECOMMENDATION: [Approve/Deny/Request More Info/Escalate]"; lit nl;
    lit nl;
    lit "Keep your response concise and focus on the most important fraud indicators."
  ].

(** [investigate_claim(self, claim_id)] *)
Definition investigate_claim (claim_id : value) : M dict :=
  claim <- _get_claim_details claim_id ;;
  match claim with
  | None =>
      msg <- lift (fstring [lit "Claim "; fld (Ok claim_id); lit " not found"]) ;;
      ret {[ "error" := VStr msg ]}
  | Some _ =>
      provider_id <- lift (subscript claim "provider_id") ;;
      provider_context <- _get_provider_context provider_id ;;
      patient_id <- lift (subscript claim "patient_id") ;;
      patient_context <- _get_patient_context patient_id ;;
      fraud_flags <- _get_fraud_flags claim_id ;;
      prompt <- lift (_build_investigation_prompt claim provider_context
                        patient_context fraud_flags) ;;
      analysis <- LLMClient.analyze_fraud prompt "" ;;
      claim_amount <- lift (subscript claim "claim_amount") ;;
      provider <- lift (subscript claim "provider_id") ;;
      specialty <- lift (subscript claim "provider_specialty") ;;
      ret {[ "claim_id" := claim_id;
             "analysis" := analysis;
             "claim_amount" := claim_amount;
             "provider" := provider;
             "specialty" := specialty ]}
  end.




End InvestigationAgent.

(** ** [agents/explanation_agent.py] *)

Module ExplanationAgent.

Definition fraud_info_query (key : string) : string :=
  "SELECT * FROM fraud_flags WHERE claim_id = '" +:+ key +:+ "'".

Definition claim_query (key : string) : string :=
  "SELECT * FROM claims WHERE claim_id = '" +:+ key +:+ "'".

(** [_get_fraud_info(self, claim_id)] *)
Definition _get_fraud_info (claim_id : value) : M (option dict) :=
  key <- lift (str claim_id) ;;
  result <- read_sql_query (fraud_info_query key) key
              (fun d => rows_where "claim_id" key (fraud_flags d)) ;;
  ret (first_row result).

(** [_get_claim_details(self, claim_id)] *)
Definition _get_claim_details (claim_id : value) : M (option dict) :=
  key <- lift (str claim_id) ;;
  result <- read_sql_query (claim_query key) key
              (fun d => rows_where "claim_id" key (claims d)) ;;
  ret (first_row result).

Definition dq : string := String "034"%char "".

(** [_build_explanation_prompt(self, claim, fraud_info, investigation=None)] *)
Definition _build_explanation_prompt (claim fraud_info investigation : option dict)
    : outcome string :=
  fstring [
    lit "You are explaining a fraud case to a non-technical insurance adjuster. ";
    lit nl; lit nl;
    lit "CLAIM INFORMATION:"; lit nl;
    lit "- Claim ID: "; fld (subscript claim "claim_id"); lit nl;
    lit "- Amount: $"; fld_f2 true (subscript claim "claim_amount"); lit nl;
    lit "- Provider: "; fld (subscript claim "provider_specialty"); lit nl;
    lit "- Procedure: "; fld (subscript claim "procedure_code"); lit nl;
    lit "- Diagnosis: "; fld (subscript claim "diagnosis_code"); lit nl;
    lit nl;
    lit "FRAUD DETECTION RESULTS:"; lit nl;
    lit "- Fraud Score: "; fld (subscript fraud_info "fraud_score"); lit "/100"; lit nl;
    lit "- Rules Triggered: "; fld (subscript fraud_info "rules_triggered"); lit nl;
    lit "- Technical Explanation: "; fld (subscript fraud_info "explanation"); lit nl;
    lit nl;
    lit "Generate a clear, concise explanation (2-3 sentences) that:"; lit nl;
    lit "1. States WHY this claim is suspicious"; lit nl;
    lit "2. Highlights the KEY red flag"; lit nl;
    lit "3. Is understandable to someone without technical knowledge"; lit nl;
    lit nl;
    lit "Do not use jargon like "; lit dq; lit "Z-score"; lit dq; lit " or "; lit dq;
    lit "statistical outlier"; lit dq; lit ". Use plain language like "; lit dq;
    lit "unusually high amount"; lit dq; lit " or "; lit dq;
    lit "multiple claims in short time"; lit dq; lit "."; lit nl;
    lit nl;
    lit "Example format:"; lit nl;
    lit dq;
    lit "This claim is flagged as suspicious because [main reason]. Specifically, [key red flag]. This pattern is commonly associated with fraudulent billing.";
    lit dq; lit nl;
    lit nl;
    lit "Your explanation:"
  ].

(** [explain_fraud_case(self, claim_id, investigation_result=None)] *)
Definition explain_fraud_case (claim_id : value)
    (investigation_result : option dict) : M value :=
  fraud_info <- _get_fraud_info claim_id ;;
  match fraud_info with
  | None =>
      msg <- lift (fstring [lit "No fraud information found for claim ";
                            fld (Ok claim_id)]) ;;
      ret (VStr msg)
  | Some _ =>
      claim <- _get_claim_details claim_id ;;
      prompt <- lift (_build_explanation_prompt claim fraud_info
                        investigation_result) ;;
      LLMClient.chat [ {| role := "user"; content := prompt |} ] (Some (7 # 10))
  end.

(** [generate_fraud_report(self, claim_ids)] *)
Definition generate_fraud_report (claim_ids : list value) : M (list dict) :=
  for_each claim_ids (fun claim_id =>
    explanation <- explain_fraud_case claim_id None ;;
    ret {[ "claim_id" := claim_id; "explanation" := explanation ]}).

End ExplanationAgent.

(** ** [app/ui_utils.py] *)

Module UiUtils.

(** A DataFrame: its column labels and its rows in index order.  A row
    holds a value under each label; NaN and [None] are the missing
    values. *)
Record frame : Type := {
  columns : list string;
  records : list row
}.

(** [df[col]] *)
Definition column (df : frame) (col : string) : outcome (list value) :=
  if bool_decide (col ∈ columns df)
  then Ok ((fun r => get r col VNaN) <$> records df)
  else Raise (KeyError col).

(** [v == 1], the comparison of one cell. *)
Definition eq_one (v : value) : bool :=
  match v with
  | VInt z => z =? 1
  | VFloat q => Qeq_bool q 1
  | _ => false
  end.

(** [df[df[col] == 1]] *)
Definition where_one (df : frame) (col : string) : outcome frame :=
  obind (column df col) (fun _ =>
    Ok {| columns := columns df;
          records := filter (fun r => eq_one (get r col VNaN)) (records df) |}).

(** The expression [(a / b * 100) if b > 0 else 0], kept as written: the
    quotient is taken in floating point and is not computed here. *)
Inductive rate : Type :=
  | Zero
  | Percent (a b : nat).

(** The number the expression stands for. *)
Definition rate_exact (r : rate) : Q :=
  match r with
  | Zero => 0
  | Percent a b => (Z.of_nat a # 1) / (Z.of_nat b # 1) * 100
  end.

(** The dict that [create_fraud_metrics] returns, key by key. *)
Record metrics : Type := {
  total_claims : nat;
  total_amount : value;
  fraud_claims : nat;
  fraud_amount : value;
  fraud_rate : rate
}.

(** [create_fraud_metrics(df)].  [series_sum] is [Series.sum] of pandas,
    which the repository does not define. *)
Definition create_fraud_metrics (series_sum : list value -> outcome value)
    (df : frame) : outcome metrics :=
  let total_claims := length (records df) in
  obind (obind (column df "claim_amount") series_sum) (fun total_amount =>
  obind (where_one df "fraud_detected") (fun fraud_df =>
  let fraud_claims := length (records fraud_df) in
  obind (obind (column fraud_df "claim_amount") series_sum) (fun fraud_amount =>
  let fraud_rate :=
    if (0 <? total_claims)%nat then Percent fraud_claims total_claims else Zero in
  Ok {| total_claims := total_claims;
        total_amount := total_amount;
        fraud_claims := fraud_claims;
        fraud_amount := fraud_amount;
        fraud_rate := fraud_rate |}))).

(** [s.split(',')]: the pieces between the commas; there is always one
    piece more than there are commas. *)
Fixpoint split_comma (s : string) : list string :=
  match s with
  | EmptyString => [EmptyString]
  | String c s' =>
      if Ascii.eqb c ","%char then EmptyString :: split_comma s'
      else
        match split_comma s' with
        | p :: ps => String c p :: ps
        | [] => [String c EmptyString]
        end
  end.

(** The characters that [str.isspace] accepts, in their UTF-8 encoding:
    one byte for U+0009..U+000D, U+001C..U+001F and the space, two bytes
    for U+0085 and U+00A0, three bytes for U+1680, U+2000..U+200A, U+2028,
    U+2029, U+202F, U+205F and U+3000. *)
Definition space1 (a : ascii) : bool :=
  let n := N_of_ascii a in
  ((9 <=? n) && (n <=? 13) || (28 <=? n) && (n <=? 32))%N.

Definition space2 (a b : ascii) : bool :=
  let m := N_of_ascii a in
  let n := N_of_ascii b in
  ((m =? 194) && ((n =? 133) || (n =? 160)))%N.

Definition space3 (a b c : ascii) : bool :=
  let l := N_of_ascii a in
  let m := N_of_ascii b in
  let n := N_of_ascii c in
  ((l =? 225) && (m =? 154) && (n =? 128)
   || (l =? 226) && (m =? 128) &&
        ((128 <=? n) && (n <=? 138) || (n =? 168) || (n =? 169) || (n =? 175))
   || (l =? 226) && (m =? 129) && (n =? 159)
   || (l =? 227) && (m =? 128) && (n =? 128))%N.

(** [s.lstrip()], on the bytes of [s]. *)
Fixpoint lstrip (l : list ascii) : list ascii :=
  match l with
  | [] => []
  | a :: r1 =>
      if space1 a then lstrip r1
      else
        match r1 with
        | [] => l
        | b :: r2 =>
            if space2 a b then lstrip r2
            else
              match r2 with
              | [] => l
              | c :: r3 => if space3 a b c then lstrip r3 else l
              end
        end
  end.

(** [s.rstrip()], on the bytes of [s] read from the right. *)
Fixpoint rstrip_rev (l : list ascii) : list ascii :=
  match l with
  | [] => []
  | a :: r1 =>
      if space1 a then rstrip_rev r1
      else
        match r1 with
        | [] => l
        | b :: r2 =>
            if space2 b a then rstrip_rev r2
            else
              match r2 with
              | [] => l
              | c :: r3 => if space3 c b a then rstrip_rev r3 else l
              end
        end
  end.

(** [s.strip()] *)
Definition strip (s : string) : string :=
  string_of_list_ascii
    (rev (rstrip_rev (rev (lstrip (list_ascii_of_string s))))).

(** [series.dropna()]: NaN and [None] are dropped. *)
Definition is_na (v : value) : bool :=
  match v with VNone | VNaN => true | _ => false end.

Definition dropna (l : list value) : list value :=
  filter (fun v => negb (is_na v)) l.

(** [[r.strip() for r in rules.split(',')]] for one cell of the column;
    a number has no [split]. *)
Definition rule_names (rules : value) : outcome (list string) :=
  match rules with
  | VStr s => Ok (strip <$> split_comma s)
  | _ => Raise AttributeError
  end.

(** The loop [for rules in ...: all_rules.extend(...)]. *)
Fixpoint extend_all (cells : list value) : outcome (list string) :=
  match cells with
  | [] => Ok []
  | v :: rest =>
      obind (rule_names v) (fun names =>
      obind (extend_all rest) (fun more => Ok (names ++ more)))
  end.

(** The list [all_rules] that [plot_fraud_by_rule(df)] counts and
    charts. *)
Definition all_rules (df : frame) : outcome (list string) :=
  obind (where_one df "fraud_detected") (fun fraud_df =>
  obind (column fraud_df "rules_triggered") (fun cells =>
  extend_all (dropna cells))).

End UiUtils.

(** ** Vocabulary of the statements *)

(** [needle in hay] *)
Definition contains (needle hay : string) : Prop :=
  exists pre post, hay = pre +:+ needle +:+ post.

Fixpoint is_prefix (p s : string) : bool :=
  match p, s with
  | EmptyString, _ => true
  | String a p', String b s' => Ascii.eqb a b && is_prefix p' s'
  | String _ _, EmptyString => false
  end.

(** A decision procedure for [contains]. *)
Fixpoint occurs (needle hay : string) : bool :=
  is_prefix needle hay ||
  match hay with
  | EmptyString => false
  | String _ hay' => occurs needle hay'
  end.

Definition is_ok {A} (o : outcome A) : Prop := exists a, o = Ok a.







(** The amount, in hundredths, that a number comes to when it is rounded
    to two decimals, ties to the even neighbour. *)
Definition hundredths (v : value) : Z :=
  match v with
  | VInt z => z * 100
  | VFloat q => (if Qnum q <? 0 then -1 else 1) * round_half_even (Qabs q * 100)
  | _ => 0
  end.


(** The text of an f-string piece that evaluated. *)
Definition force (p : outcome string) : string :=
  match p with Ok s => s | _ => "" end.

Definition join (pieces : list string) : string := foldr String.append "" pieces.

(** [precedes col r1 r2]: the key of [r1] is not below the key of [r2], so
    [ORDER BY col DESC] may list [r1] before [r2]. *)
Definition precedes (col : string) (r1 r2 : row) : Prop :=
  key_leb (key_of (r2 !! col)) (key_of (r1 !! col)) = true.

(** Keys that the collating order does not tell apart. *)
Definition key_eqb (a b : sort_key) : bool := key_leb a b && key_leb b a.

(** The rows of a result whose [col] key ties with [k], in result order. *)
Definition tied (col : string) (k : sort_key) (l : list row) : list row :=
  filter (fun r => key_eqb (key_of (r !! col)) k) l.

(** The request [analyze_fraud] builds around the text it is given. *)
Definition analysis_request (e : env) (claim_data context : string) : request :=
  {| req_model := model e;
     req_messages :=
       [ {| role := "user";
            content := LLMClient.analyze_template claim_data context |} ];
     req_temperature := 3 # 10 |}.


(** The summary that the context helpers hand out for [key]: the first
    matching row, or the empty dict. *)
Definition summary_of (col key : string) (table : list row) : dict :=
  first_row_or_empty (rows_where col key table).

(** [v] renders to a key that is pasted into a statement unharmed. *)
Definition plain_key (v : value) (key : string) : Prop :=
  str v = Ok key /\ plain key = true.

(** *** Bundles that render

    The fields the prompt templates read, with the kind of value each
    format accepts: a bare field takes anything whose [str] is covered
    here, a ".2f" field takes a number. *)

Definition renders (v : value) : bool :=
  match v with VFloat q => whole q | _ => true end.

Definition numeric (v : value) : bool :=
  match v with VInt _ | VFloat _ | VNaN => true | _ => false end.

Definition has_text (d : dict) (k : string) : bool :=
  match d !! k with Some v => renders v | None => false end.

(** The numbers the two fixed-point formats are covered for. *)
Definition formats (v : value) : bool :=
  match v with
  | VInt z => Z.abs z <=? 2 ^ 53
  | VFloat _ | VNaN => true
  | _ => false
  end.

Definition has_number (d : dict) (k : string) : bool :=
  match d !! k with Some v => formats v | None => false end.

Definition may_text (d : dict) (k : string) : bool :=
  match d !! k with Some v => renders v | None => true end.

Definition may_number (d : dict) (k : string) : bool :=
  match d !! k with Some v => formats v | None => true end.

Definition claim_renders (c : dict) : bool :=
  has_text c "claim_id" && has_number c "claim_amount" && has_text c "claim_date" &&
  has_text c "provider_id" && has_text c "provider_specialty" &&
  has_text c "procedure_code" && has_text c "diagnosis_code" &&
  has_text c "status" && may_number c "amount_zscore".

Definition flags_render (f : dict) : bool :=
  has_text f "rules_triggered" && has_text f "fraud_score" &&
  has_text f "explanation".

Definition provider_renders (s : dict) : bool :=
  may_text s "total_claims" && may_number s "avg_claim_amount" &&
  may_number s "total_billed" && may_text s "fraud_claims".

Definition patient_renders (s : dict) : bool :=
  may_text s "total_claims" && may_number s "total_spent" &&
  may_text s "fraud_claims".

(** The text key stored in column [col] of [c], when it is a plain one. *)
Definition key_in (c : dict) (col : string) : option string :=
  match c !! col with
  | Some v =>
      match str v with
      | Ok k => if plain k then Some k else None
      | _ => None
      end
  | None => None
  end.

(** The plain key in column [col] of the claim record of [key]: the
    provider or the patient the claim refers to. *)
Definition referenced (d : database) (key col : string) : option string :=
  match head (rows_where "claim_id" key (claims d)) with
  | Some c => key_in c col
  | None => None
  end.

(** Every row of [table] has the columns [cols]. *)
Definition has_columns (cols : list string) (table : list row) : bool :=
  forallb (fun r => forallb (fun col => bool_decide (is_Some (r !! col))) cols) table.

(** The tables have the columns that the statements of the investigation
    name in their select lists, conditions and orderings. *)
Definition schema_ok (d : database) : bool :=
  has_columns ["claim_id"; "provider_id"; "patient_id"; "claim_amount"; "claim_date";
               "status"; "is_fraud"; "provider_specialty"] (claims d)
  && has_columns ["provider_id"] (providers d)
  && has_columns ["patient_id"] (patients d)
  && has_columns ["claim_id"; "fraud_detected"; "fraud_score"; "rules_triggered";
                  "explanation"] (fraud_flags d).

(** The data source holds everything [investigate_claim] reads for [key],
    in a form the prompt template renders. *)
Definition investigable (d : database) (key : string) : bool :=
  schema_ok d && plain key &&
  match head (rows_where "claim_id" key (claims d)),
        head (rows_where "claim_id" key (fraud_flags d)) with
  | Some c, Some f =>
      claim_renders c && flags_render f &&
      match key_in c "provider_id", key_in c "patient_id" with
      | Some pk, Some ptk =>
          provider_renders (summary_of "provider_id" pk (providers d)) &&
          patient_renders (summary_of "patient_id" ptk (patients d))
      | _, _ => false
      end
  | _, _ => false
  end.

(** The completion service answers every request. *)
Definition answers (e : env) : Prop :=
  forall n req, is_ok (backend e n req).

(** The report of a claim that is not in the [claims] table. *)
Definition not_found_report (key : string) : dict :=
  {[ "error" := VStr ("Claim " +:+ key +:+ " not found") ]}.





(** *** Sample data *)

Definition sample_claim (id provider patient : string) (amount : Q) : dict :=
  {[ "claim_id" := VStr id;
     "claim_amount" := VFloat amount;
     "claim_date" := VStr "2024-03-01";
     "provider_id" := VStr provider;
     "patient_id" := VStr patient;
     "procedure_code" := VStr "99213";
     "diagnosis_code" := VStr "I10";
     "status" := VStr "pending";
     "provider_specialty" := VStr "Cardiology";
     "is_fraud" := VInt 0;
     "amount_zscore" := VFloat (7 # 2) ]}.

Definition sample_flag (id : string) (score : Z) (rules : string) : dict :=
  {[ "claim_id" := VStr id;
     "fraud_detected" := VInt 1;
     "fraud_score" := VInt score;
     "rules_triggered" := VStr rules;
     "explanation" := VStr "Amount far above specialty peers" ]}.

Definition sample_provider (id : string) : dict :=
  {[ "provider_id" := VStr id;
     "total_claims" := VInt 120;
     "avg_claim_amount" := VFloat (4321 # 2);
     "total_billed" := VFloat (259260 # 1);
     "fraud_claims" := VInt 3 ]}.

Definition sample_patient (id : string) : dict :=
  {[ "patient_id" := VStr id;
     "total_claims" := VInt 7;
     "total_spent" := VFloat (18250 # 1);
     "fraud_claims" := VInt 0 ]}.

(** Claim C100 is flagged and names a provider that has no record; claim
    C200 has no fraud flag and names a patient that has no record. *)
Definition sample_db : database :=
  {| claims := [ sample_claim "C100" "P1" "PT1" (15000 # 1);
                 sample_claim "C200" "P2" "PT2" (250 # 1) ];
     providers := [ sample_provider "P2" ];
     patients := [ sample_patient "PT1" ];
     fraud_flags := [ sample_flag "C100" 85 "high_amount,duplicate_billing" ] |}.



(** A completion service that answers, and one that is out of reach. *)
Definition online (d : database) : env :=
  {| db := d;
     model := "openai/gpt-3.5-turbo";
     backend := fun _ _ => Ok (VStr "FRAUD LIKELIHOOD: 9") |}.


Definition start : trace := {| queries := []; requests := [] |}.

(** *** Dashboard data *)

(** The number of commas in a text. *)
Definition commas (s : string) : nat :=
  length (filter (fun c => Ascii.eqb c ","%char) (list_ascii_of_string s)).

(** No space character opens the bytes [l]. *)
Definition starts_clean (l : list ascii) : bool :=
  match l with
  | [] => true
  | a :: r1 =>
      negb (UiUtils.space1 a) &&
      match r1 with
      | [] => true
      | b :: r2 =>
          negb (UiUtils.space2 a b) &&
          match r2 with
          | [] => true
          | c :: _ => negb (UiUtils.space3 a b c)
          end
      end
  end.

(** The rows of a frame that [df[col] == 1] keeps. *)
Definition flagged_rows (df : UiUtils.frame) : list row :=
  filter (fun r => UiUtils.eq_one (get r "fraud_detected" VNaN)) (UiUtils.records df).

(** The texts in the column rules_triggered of the flagged rows. *)
Definition rule_texts (df : UiUtils.frame) : list string :=
  omap (fun r => match get r "rules_triggered" VNaN with
                 | VStr s => Some s
                 | _ => None
                 end) (flagged_rows df).

(** The sum of a column of integers, as long as it stays within 64 bits:
    one function that can stand for [Series.sum]. *)
Definition exact_sum (cells : list value) : outcome value :=
  foldr (fun v acc =>
           obind acc (fun a =>
             match v, a with
             | VInt z, VInt y =>
                 if (- 2 ^ 63 <=? z + y) && (z + y <? 2 ^ 63)
                 then Ok (VInt (z + y)) else Unmodelled
             | _, _ => Unmodelled
             end))
        (Ok (VInt 0)) cells.

(** Three claims as the dashboard loads them: one flagged with two rules,
    one cleared, one that was never scored. *)
Definition sample_frame : UiUtils.frame :=
  {| UiUtils.columns := ["claim_id"; "claim_amount"; "fraud_detected"; "rules_triggered"];
     UiUtils.records :=
       [ {[ "claim_id" := VStr "C100"; "claim_amount" := VInt 15000;
            "fraud_detected" := VFloat 1; "rules_triggered" := VStr "high_amount, duplicate_billing" ]};
         {[ "claim_id" := VStr "C200"; "claim_amount" := VInt 250;
            "fraud_detected" := VFloat 0; "rules_triggered" := VStr "" ]};
         {[ "claim_id" := VStr "C400"; "claim_amount" := VInt 90;
            "fraud_detected" := VNaN; "rules_triggered" := VNone ]} ] |}.

(** * Properties *)

(** ** Substrings *)

Section Substrings.

Implicit Types needle hay s : string.

Lemma append_cons a s1 s2 : String a s1 +:+ s2 = String a (s1 +:+ s2).
Proof. reflexivity. Qed.

Lemma append_nil_l s : "" +:+ s = s.
Proof. reflexivity. Qed.

Lemma append_nil_r s : s +:+ "" = s.
Proof. induction s as [|a s IH]; [done|]. by rewrite append_cons, IH. Qed.

Lemma append_assoc s1 s2 s3 : (s1 +:+ s2) +:+ s3 = s1 +:+ (s2 +:+ s3).
Proof.
  induction s1 as [|a s1 IH]; [done|]. by rewrite !append_cons, IH.
Qed.

Lemma is_prefix_spec p s : is_prefix p s = true <-> exists post, s = p +:+ post.
Proof.
  revert s. induction p as [|a p IH]; intros s; simpl.
  - split; [intros _; by exists s | done].
  - destruct s as [|b s].
    + split; [done | intros [post Hpost]; discriminate].
    + rewrite andb_true_iff, IH. split.
      * intros [Hab [post ->]]. apply Ascii.eqb_eq in Hab as ->. by exists post.
      * intros [post Hpost]. rewrite append_cons in Hpost.
        injection Hpost as -> ->. split; [apply Ascii.eqb_refl | by exists post].
Qed.

Lemma occurs_spec needle hay : occurs needle hay = true <-> contains needle hay.
Proof.
  induction hay as [|b hay IH]; simpl.
  - rewrite orb_false_r, is_prefix_spec. split.
    + intros [post Hpost]. by exists "", post.
    + intros ([|a pre] & post & Hpost); [by exists post | discriminate].
  - rewrite orb_true_iff, is_prefix_spec, IH. split.
    + intros [[post Hpost] | (pre & post & ->)].
      * by exists "", post.
      * by exists (String b pre), post.
    + intros ([|a pre] & post & Hpost).
      * left. by exists post.
      * right. rewrite append_cons in Hpost. injection Hpost as -> ->.
        by exists pre, post.
Qed.

Lemma contains_refl s : contains s s.
Proof. exists "", "". by rewrite append_nil_l, append_nil_r. Qed.

Lemma contains_trans s1 s2 s3 : contains s1 s2 -> contains s2 s3 -> contains s1 s3.
Proof.
  intros (p1 & q1 & ->) (p2 & q2 & ->).
  exists (p2 +:+ p1), (q1 +:+ q2). by rewrite !append_assoc.
Qed.

Lemma contains_skip needle s rest : contains needle rest -> contains needle (s +:+ rest).
Proof. intros (pre & post & ->). exists (s +:+ pre), post. by rewrite append_assoc. Qed.

Lemma contains_in_head needle s rest : contains needle s -> contains needle (s +:+ rest).
Proof.
  intros (pre & post & ->). exists pre, (post +:+ rest). by rewrite !append_assoc.
Qed.

Lemma contains_head s rest : contains s (s +:+ rest).
Proof. apply contains_in_head, contains_refl. Qed.

Lemma contains_head2 s1 s2 rest : contains (s1 +:+ s2) (s1 +:+ s2 +:+ rest).
Proof. rewrite <- append_assoc. apply contains_head. Qed.

Lemma contains_head3 s1 s2 s3 rest :
  contains (s1 +:+ s2 +:+ s3) (s1 +:+ s2 +:+ s3 +:+ rest).
Proof. rewrite <- !append_assoc. apply contains_head. Qed.

Lemma contains_app_part needle s1 s2 :
  contains needle s1 \/ contains needle s2 -> contains needle (s1 +:+ s2).
Proof. intros [?|?]; [by apply contains_in_head | by apply contains_skip]. Qed.

End Substrings.

(** [occurs] decides containment of closed strings. *)
Ltac occurs_closed := apply occurs_spec; vm_compute; reflexivity.

(** Search a right-nested concatenation for a needle that is one piece,
    sits inside one literal piece, or is made of up to three neighbours. *)
Ltac find_piece :=
  first
    [ apply contains_head
    | apply contains_head2
    | apply contains_head3
    | apply contains_in_head; occurs_closed
    | apply contains_skip; find_piece ].

(** ** f-strings *)

Section FStrings.

Lemma fstring_Ok parts s :
  fstring parts = Ok s <-> Forall is_ok parts /\ s = join (force <$> parts).
Proof.
  revert s. induction parts as [|p parts IH]; intros s; simpl.
  - split; [intros [= <-]; by split | intros [_ ->]; done].
  - destruct p as [x| |]; simpl.
    + destruct (fstring parts) as [r| |] eqn:Hr; simpl.
      * destruct (IH r) as [[Hall ->] _]; [done|]. split.
        -- intros [= <-]. split; [constructor; [by exists x | done] | done].
        -- by intros [_ ->].
      * split; [done|]. intros [Hall _]. apply Forall_cons in Hall as [_ Hall].
        destruct (IH (join (force <$> parts))) as [_ Hk].
        by specialize (Hk (conj Hall eq_refl)).
      * split; [done|]. intros [Hall _]. apply Forall_cons in Hall as [_ Hall].
        destruct (IH (join (force <$> parts))) as [_ Hk].
        by specialize (Hk (conj Hall eq_refl)).
    + split; [done|]. intros [Hall _]. apply Forall_cons in Hall as [[? ?] _]. done.
    + split; [done|]. intros [Hall _]. apply Forall_cons in Hall as [[? ?] _]. done.
Qed.

Lemma fld_Ok e s : fld e = Ok s <-> exists v, e = Ok v /\ str v = Ok s.
Proof.
  unfold fld. destruct e as [v| |]; simpl; split; try done.
  - intros H. by exists v.
  - by intros (? & [= <-] & ?).
  - by intros (? & ? & _).
  - by intros (? & ? & _).
Qed.

Lemma fld_f2_Ok g e s :
  fld_f2 g e = Ok s <-> exists v, e = Ok v /\ format_f2 g v = Ok s.
Proof.
  unfold fld_f2. destruct e as [v| |]; simpl; split; try done.
  - intros H. by exists v.
  - by intros (? & [= <-] & ?).
  - by intros (? & ? & _).
  - by intros (? & ? & _).
Qed.

End FStrings.

(** ** The query engine *)

Section Ordering.

Lemma key_leb_refl a : key_leb a a = true.
Proof.
  destruct a as [|q|s]; simpl; [done| |].
  - apply Qle_bool_iff, Qle_refl.
  - apply Is_true_true. change (String.le s s). done.
Qed.

Lemma key_leb_trans a b c :
  key_leb a b = true -> key_leb b c = true -> key_leb a c = true.
Proof.
  destruct a as [|p|s], b as [|q|u], c as [|r|v]; simpl; try done.
  - rewrite !Qle_bool_iff. apply Qle_trans.
  - intros H1%Is_true_true H2%Is_true_true. apply Is_true_true.
    change (String.le s v). by trans u.
Qed.



Variable col : string.

Global Instance precedes_trans : Transitive (precedes col).
Proof. intros r1 r2 r3 H12 H23. unfold precedes in *. by eapply key_leb_trans. Qed.





Lemma tied_insert_desc k x l :
  tied col k (insert_desc col x l) = tied col k (x :: l).
Proof.
  unfold tied. induction l as [|y l IH]; simpl; [done|].
  destruct (key_leb (key_of (y !! col)) (key_of (x !! col))) eqn:Hyx; [done|].
  rewrite filter_cons, IH, !filter_cons.
  destruct (decide (key_eqb (key_of (y !! col)) k)) as [Hy|Hy];
    destruct (decide (key_eqb (key_of (x !! col)) k)) as [Hx|Hx]; try done.
  exfalso. unfold key_eqb in Hx, Hy.
  apply Is_true_true, andb_true_iff in Hx as [_ Hkx].
  apply Is_true_true, andb_true_iff in Hy as [Hyk _].
  by rewrite (key_leb_trans _ _ _ Hyk Hkx) in Hyx.
Qed.

(** Rows with equal keys keep the order in which the scan met them. *)
Lemma order_by_desc_stable k l : tied col k (order_by_desc col l) = tied col k l.
Proof.
  induction l as [|x l IH]; [done|].
  change (order_by_desc col (x :: l)) with (insert_desc col x (order_by_desc col l)).
  rewrite tied_insert_desc. unfold tied in *. by rewrite !filter_cons, IH.
Qed.



End Ordering.

(** ** Runs of the agent monad *)

Section Runs.

Context {A B : Type}.

Lemma bind_Ok (m : M A) (k : A -> M B) e t b t' :
  bind m k e t = (Ok b, t') ->
  exists a t1, m e t = (Ok a, t1) /\ k a e t1 = (Ok b, t').
Proof.
  unfold bind. destruct (m e t) as [[a|x|] t1]; [|done..].
  intros H. by exists a, t1.
Qed.

Lemma bind_inv (m : M A) (k : A -> M B) e t o t' :
  bind m k e t = (o, t') ->
  (exists a t1, m e t = (Ok a, t1) /\ k a e t1 = (o, t')) \/
  (forall a, o <> Ok a) /\
  (forall r, (m e t).1 <> Ok r) /\ (m e t).2 = t'.
Proof.
  unfold bind. destruct (m e t) as [[a|x|] t1]; intros H.
  - left. by exists a, t1.
  - right. injection H as <- <-. done.
  - right. injection H as <- <-. done.
Qed.

Lemma bind_run_Ok (m : M A) (k : A -> M B) e t a t1 :
  m e t = (Ok a, t1) -> bind m k e t = k a e t1.
Proof. unfold bind. by intros ->. Qed.

Lemma bind_run_Raise (m : M A) (k : A -> M B) e t x t1 :
  m e t = (Raise x, t1) -> bind m k e t = (Raise x, t1).
Proof. unfold bind. by intros ->. Qed.

Lemma lift_Ok (o : outcome A) e t a t' :
  lift o e t = (Ok a, t') -> o = Ok a /\ t' = t.
Proof. unfold lift. by intros [= -> ->]. Qed.

Lemma ret_Ok (a a' : A) e t t' : ret a e t = (Ok a', t') -> a' = a /\ t' = t.
Proof. unfold ret. by intros [= -> ->]. Qed.

End Runs.


(** A computation is [quiet] when it never talks to the completion
    service, whatever its outcome. *)
Lemma quiet_bind {A B} (m : M A) (k : A -> M B) :
  (forall e t, requests (m e t).2 = requests t) ->
  (forall a e t, requests (k a e t).2 = requests t) ->
  forall e t, requests (bind m k e t).2 = requests t.
Proof.
  intros Hm Hk e t. unfold bind. specialize (Hm e t).
  destruct (m e t) as [[a|x|] t1]; simpl in *; [|done..].
  by rewrite Hk.
Qed.

Lemma quiet_read_sql_query text key rows e t :
  requests (read_sql_query text key rows e t).2 = requests t.
Proof. done. Qed.

Lemma quiet_lift {A} (o : outcome A) e t : requests (lift o e t).2 = requests t.
Proof. done. Qed.

Lemma quiet_ret {A} (a : A) e t : requests (ret a e t).2 = requests t.
Proof. done. Qed.

Ltac quiet :=
  repeat first
    [ apply quiet_read_sql_query | apply quiet_lift | apply quiet_ret
    | apply quiet_bind; intros ].

(** ** The data-access helpers *)

Section DataAccess.

Variables (e : env) (t : trace).

Lemma investigation_claim_details cid key :
  str cid = Ok key ->
  InvestigationAgent._get_claim_details cid e t =
    (if plain key then Ok (head (rows_where "claim_id" key (claims (db e))))
     else Unmodelled,
     add_query (InvestigationAgent.claim_query key) t).
Proof.
  intros Hkey. unfold InvestigationAgent._get_claim_details, bind, lift.
  rewrite Hkey. unfold read_sql_query. by destruct (plain key).
Qed.

Lemma investigation_fraud_flags cid key :
  str cid = Ok key ->
  InvestigationAgent._get_fraud_flags cid e t =
    (if plain key then Ok (head (rows_where "claim_id" key (fraud_flags (db e))))
     else Unmodelled,
     add_query (InvestigationAgent.fraud_flags_query key) t).
Proof.
  intros Hkey. unfold InvestigationAgent._get_fraud_flags, bind, lift.
  rewrite Hkey. unfold read_sql_query. by destruct (plain key).
Qed.

Lemma explanation_fraud_info cid key :
  str cid = Ok key ->
  ExplanationAgent._get_fraud_info cid e t =
    (if plain key then Ok (head (rows_where "claim_id" key (fraud_flags (db e))))
     else Unmodelled,
     add_query (ExplanationAgent.fraud_info_query key) t).
Proof.
  intros Hkey. unfold ExplanationAgent._get_fraud_info, bind, lift.
  rewrite Hkey. unfold read_sql_query. by destruct (plain key).
Qed.

Lemma explanation_claim_details cid key :
  str cid = Ok key ->
  ExplanationAgent._get_claim_details cid e t =
    (if plain key then Ok (head (rows_where "claim_id" key (claims (db e))))
     else Unmodelled,
     add_query (ExplanationAgent.claim_query key) t).
Proof.
  intros Hkey. unfold ExplanationAgent._get_claim_details, bind, lift.
  rewrite Hkey. unfold read_sql_query. by destruct (plain key).
Qed.

(** A lookup whose key cannot be rendered does not reach the engine. *)
Lemma lookup_not_rendered cid :
  (forall key, str cid <> Ok key) ->
  (forall r, (InvestigationAgent._get_claim_details cid e t).1 <> Ok r) /\
  (forall r, (ExplanationAgent._get_fraud_info cid e t).1 <> Ok r).
Proof.
  intros Hkey.
  unfold InvestigationAgent._get_claim_details, ExplanationAgent._get_fraud_info,
    bind, lift.
  destruct (str cid) as [key| |]; [by destruct (Hkey key)|..]; by split.
Qed.

End DataAccess.

(** ** The completion client *)

Lemma analyze_fraud_run claim_data context e t :
  LLMClient.analyze_fraud claim_data context e t =
    (backend e (length (requests t)) (analysis_request e claim_data context),
     add_request (analysis_request e claim_data context) t).
Proof. reflexivity. Qed.

Lemma chat_run messages temperature e t :
  LLMClient.chat messages temperature e t =
    let req := {| req_model := model e;
                  req_messages := messages;
                  req_temperature :=
                    default LLMClient.default_temperature temperature |} in
    (backend e (length (requests t)) req, add_request req t).
Proof. reflexivity. Qed.

(** ** The investigation pipeline *)

Section Investigation.

Import InvestigationAgent.

Lemma provider_context_run e t pid key :
  str pid = Ok key -> plain key = true ->
  _get_provider_context pid e t =
    (Ok {| summary :=
             summary_of "provider_id" key (providers (db e));
           recent_claims :=
             recent ["claim_amount"; "claim_date"; "status"; "is_fraud"]
               "provider_id" key (db e) |},
     add_query (provider_recent_query key) (add_query (provider_query key) t)).
Proof.
  intros Hkey Hplain. unfold _get_provider_context, bind, lift, read_sql_query.
  by rewrite Hkey, Hplain.
Qed.

Lemma patient_context_run e t pid key :
  str pid = Ok key -> plain key = true ->
  _get_patient_context pid e t =
    (Ok {| summary :=
             summary_of "patient_id" key (patients (db e));
           recent_claims :=
             recent ["claim_amount"; "claim_date"; "provider_specialty"; "is_fraud"]
               "patient_id" key (db e) |},
     add_query (patient_recent_query key) (add_query (patient_query key) t)).
Proof.
  intros Hkey Hplain. unfold _get_patient_context, bind, lift, read_sql_query.
  by rewrite Hkey, Hplain.
Qed.

Lemma quiet_claim_details cid e' t' :
  requests (_get_claim_details cid e' t').2 = requests t'.
Proof. revert e' t'. unfold _get_claim_details. quiet. Qed.

Lemma quiet_fraud_flags cid e' t' :
  requests (_get_fraud_flags cid e' t').2 = requests t'.
Proof. revert e' t'. unfold _get_fraud_flags. quiet. Qed.

Lemma quiet_provider_context pid e' t' :
  requests (_get_provider_context pid e' t').2 = requests t'.
Proof. revert e' t'. unfold _get_provider_context. quiet. Qed.

Lemma quiet_patient_context pid e' t' :
  requests (_get_patient_context pid e' t').2 = requests t'.
Proof. revert e' t'. unfold _get_patient_context. quiet. Qed.

(** Every way in which [investigate_claim] returns. *)
Lemma investigate_claim_Ok e t cid r t' :
  investigate_claim cid e t = (Ok r, t') ->
  exists key, plain_key cid key /\
  ((head (rows_where "claim_id" key (claims (db e))) = None /\
    r = not_found_report key /\ requests t' = requests t) \/
   (exists c pctx ptctx pid pk ptid ptk prompt analysis amount provider specialty,
     head (rows_where "claim_id" key (claims (db e))) = Some c /\
     subscript (Some c) "provider_id" = Ok pid /\ plain_key pid pk /\
     summary pctx = summary_of "provider_id" pk (providers (db e)) /\
     subscript (Some c) "patient_id" = Ok ptid /\ plain_key ptid ptk /\
     summary ptctx = summary_of "patient_id" ptk (patients (db e)) /\
     _build_investigation_prompt (Some c) pctx ptctx
       (head (rows_where "claim_id" key (fraud_flags (db e)))) = Ok prompt /\
     backend e (length (requests t)) (analysis_request e prompt "") = Ok analysis /\
     requests t' = requests t ++ [analysis_request e prompt ""] /\
     r = {[ "claim_id" := cid; "analysis" := analysis; "claim_amount" := amount;
            "provider" := provider; "specialty" := specialty ]})).
Proof.
  intros H. unfold investigate_claim in H.
  apply bind_Ok in H as (claim & t1 & H1 & H).
  destruct (str cid) as [key| |] eqn:Hkey.
  2,3: unfold _get_claim_details, bind, lift in H1; rewrite Hkey in H1; done.
  rewrite (investigation_claim_details _ _ _ key Hkey) in H1.
  destruct (plain key) eqn:Hplain; [|done]. injection H1 as <- <-.
  exists key. split; [done|].
  destruct (head _) as [c|] eqn:Hc.
  - right.
    apply bind_Ok in H as (pid & t2 & [Hpid ->]%lift_Ok & H).
    apply bind_Ok in H as (pctx & t3 & Hpctx & H).
    apply bind_Ok in H as (ptid & t4 & [Hptid ->]%lift_Ok & H).
    apply bind_Ok in H as (ptctx & t5 & Hptctx & H).
    apply bind_Ok in H as (flags & t6 & Hflags & H).
    apply bind_Ok in H as (prompt & t7 & [Hprompt ->]%lift_Ok & H).
    apply bind_Ok in H as (analysis & t8 & Han & H).
    apply bind_Ok in H as (amount & t9 & [Hamount ->]%lift_Ok & H).
    apply bind_Ok in H as (provider & t10 & [Hprov ->]%lift_Ok & H).
    apply bind_Ok in H as (specialty & t11 & [Hspec ->]%lift_Ok & H).
    apply ret_Ok in H as [-> ->].
    rewrite analyze_fraud_run in Han. injection Han as Han <-.
    assert (requests t6 = requests t) as Hreq.
    { pose proof (quiet_fraud_flags cid e t5) as Q1. rewrite Hflags in Q1.
      pose proof (quiet_patient_context ptid e t3) as Q2. rewrite Hptctx in Q2.
      pose proof (quiet_provider_context pid e (add_query (claim_query key) t)) as Q3.
      rewrite Hpctx in Q3. simpl in *. congruence. }
    rewrite (investigation_fraud_flags _ _ _ key Hkey), Hplain in Hflags.
    injection Hflags as <- _.
    destruct (str pid) as [pk| |] eqn:Hpk.
    2,3: unfold _get_provider_context, bind, lift in Hpctx; rewrite Hpk in Hpctx; done.
    destruct (plain pk) eqn:Hppk.
    2: { unfold _get_provider_context, bind, lift, read_sql_query in Hpctx.
         rewrite Hpk, Hppk in Hpctx. done. }
    rewrite (provider_context_run _ _ _ pk Hpk Hppk) in Hpctx. injection Hpctx as <- _.
    destruct (str ptid) as [ptk| |] eqn:Hptk.
    2,3: unfold _get_patient_context, bind, lift in Hptctx; rewrite Hptk in Hptctx; done.
    destruct (plain ptk) eqn:Hpptk.
    2: { unfold _get_patient_context, bind, lift, read_sql_query in Hptctx.
         rewrite Hptk, Hpptk in Hptctx. done. }
    rewrite (patient_context_run _ _ _ ptk Hptk Hpptk) in Hptctx. injection Hptctx as <- _.
    eexists c, _, _, pid, pk, ptid, ptk, prompt, analysis, amount, provider, specialty.
    rewrite Hreq in Han. simpl. rewrite Hreq.
    repeat split; try done; try exact Hprompt; reflexivity.
  - left. apply bind_Ok in H as (msg & t2 & [Hmsg ->]%lift_Ok & H).
    apply ret_Ok in H as [-> ->].
    repeat split; try done.
    unfold not_found_report. simpl in Hmsg. unfold fld in Hmsg. simpl in Hmsg.
    rewrite Hkey in Hmsg. simpl in Hmsg. injection Hmsg as <-. done.
Qed.

End Investigation.

(** ** Fixed-point formatting *)

Section Formatting.

Lemma list_ascii_app s1 s2 :
  list_ascii_of_string (s1 +:+ s2) = list_ascii_of_string s1 ++ list_ascii_of_string s2.
Proof. induction s1 as [|a s1 IH]; [done|]. rewrite append_cons. simpl. by rewrite IH. Qed.















End Formatting.

(** ** The amount a formatted number writes *)

Section MoneyValue.














End MoneyValue.

(** ** Pieces of a rendered f-string *)

Section Pieces.

Lemma join_app xs ys : join (xs ++ ys) = join xs +:+ join ys.
Proof. induction xs as [|x xs IH]; [done|]. simpl. by rewrite IH, append_assoc. Qed.

Lemma join_slice ys i k : contains (join (take k (drop i ys))) (join ys).
Proof.
  exists (join (take i ys)), (join (drop k (drop i ys))).
  by rewrite <- !join_app, take_drop, take_drop.
Qed.

(** [k] neighbouring pieces, from the [i]-th on, occur in the result. *)
Lemma fstring_slice parts s i k :
  fstring parts = Ok s -> contains (join (force <$> take k (drop i parts))) s.
Proof.
  intros [_ ->]%fstring_Ok. rewrite fmap_take, fmap_drop. apply join_slice.
Qed.

Lemma fstring_part parts s i p :
  fstring parts = Ok s -> parts !! i = Some p -> is_ok p.
Proof.
  intros [Hall _]%fstring_Ok Hi. rewrite Forall_lookup in Hall. by eapply Hall.
Qed.

Lemma fstring_all_ok parts : Forall is_ok parts -> is_ok (fstring parts).
Proof.
  intros Hall. exists (join (force <$> parts)). by apply fstring_Ok.
Qed.

End Pieces.

(** [piece H i k] adds to the context that the pieces [i .. i+k-1] of the
    f-string of hypothesis [H] occur in its result. *)
Ltac piece H i k :=
  let Hp := fresh "Hpiece" in
  pose proof (fstring_slice _ _ i%nat k%nat H) as Hp;
  cbv [firstn skipn fmap list_fmap join foldr lit] in Hp;
  cbn [force] in Hp;
  rewrite ?append_nil_r in Hp.

(** [part_ok H i s Hs] names the text of the piece at position [i]. *)
Ltac part_ok H i s Hs :=
  destruct (fstring_part _ _ i%nat _ H eq_refl) as [s Hs].

(** ** Bundles that render *)

Section Rendering.

Import InvestigationAgent.

Lemma renders_str v : renders v = true -> is_ok (str v).
Proof.
  destruct v as [|z|q| |s]; simpl; try (intros _; by eexists).
  intros ->. by eexists.
Qed.

Lemma formats_format g v : formats v = true -> is_ok (format_f2 g v).
Proof.
  destruct v as [|z|q| |s]; try done; unfold formats, format_f2;
    try (intros _; by eexists).
  intros ->. by eexists.
Qed.

Lemma has_text_fld d k : has_text d k = true -> is_ok (fld (subscript (Some d) k)).
Proof.
  unfold has_text, fld, subscript. destruct (d !! k) as [v|]; [|done].
  apply renders_str.
Qed.

Lemma has_number_fld g d k :
  has_number d k = true -> is_ok (fld_f2 g (subscript (Some d) k)).
Proof.
  unfold has_number, fld_f2, subscript. destruct (d !! k) as [v|]; [|done].
  apply formats_format.
Qed.

Lemma may_text_fld d k v :
  may_text d k = true -> renders v = true -> is_ok (fld (Ok (get d k v))).
Proof.
  unfold may_text, fld, get. simpl. destruct (d !! k) as [w|]; intros H1 H2;
    by apply renders_str.
Qed.

Lemma may_number_fld g d k v :
  may_number d k = true -> formats v = true -> is_ok (fld_f2 g (Ok (get d k v))).
Proof.
  unfold may_number, fld_f2, get. simpl. destruct (d !! k) as [w|]; intros H1 H2;
    by apply formats_format.
Qed.

Lemma may_number_opt g d k v :
  may_number d k = true -> formats v = true ->
  is_ok (fld_f2 g (opt_get (Some d) k v)).
Proof. apply may_number_fld. Qed.

Lemma lit_ok s : is_ok (lit s).
Proof. by exists s. Qed.

Lemma investigation_prompt_renders c pctx ptctx f :
  claim_renders c = true -> flags_render f = true ->
  provider_renders (summary pctx) = true -> patient_renders (summary ptctx) = true ->
  is_ok (_build_investigation_prompt (Some c) pctx ptctx (Some f)).
Proof.
  unfold claim_renders, flags_render, provider_renders, patient_renders.
  rewrite !andb_true_iff.
  intros ((((((((? & ?) & ?) & ?) & ?) & ?) & ?) & ?) & ?) ((? & ?) & ?)
    (((? & ?) & ?) & ?) ((? & ?) & ?).
  apply fstring_all_ok.
  repeat (apply Forall_cons; split);
    first [ by apply Forall_nil | apply lit_ok
          | by apply has_text_fld | by apply has_number_fld
          | by apply may_text_fld | by apply may_number_fld
          | by apply may_number_opt ].
Qed.

Lemma key_in_plain c col k :
  key_in c col = Some k ->
  exists v, subscript (Some c) col = Ok v /\ plain_key v k.
Proof.
  unfold key_in, subscript, plain_key. destruct (c !! col) as [v|]; [|done].
  destruct (str v) as [k'| |] eqn:Hs; [|done..].
  destruct (plain k') eqn:Hp; [|done]. intros [= ->]. by exists v.
Qed.

(** An investigable claim is investigated to the end. *)
Lemma investigate_claim_returns e t key :
  investigable (db e) key = true -> answers e ->
  exists r t' c pk ptk f prompt analysis,
    investigate_claim (VStr key) e t = (Ok r, t') /\
    head (rows_where "claim_id" key (claims (db e))) = Some c /\
    head (rows_where "claim_id" key (fraud_flags (db e))) = Some f /\
    key_in c "provider_id" = Some pk /\ key_in c "patient_id" = Some ptk /\
    (exists rp rpt,
      _build_investigation_prompt (Some c)
        {| summary := summary_of "provider_id" pk (providers (db e)); recent_claims := rp |}
        {| summary := summary_of "patient_id" ptk (patients (db e)); recent_claims := rpt |}
        (Some f) = Ok prompt) /\
    requests t' = requests t ++ [analysis_request e prompt ""] /\
    r !! "claim_id" = Some (VStr key) /\ r !! "analysis" = Some analysis.
Proof.
  unfold investigable. intros Hinv Hans.
  apply andb_true_iff in Hinv as [Hplain Hinv].
  apply andb_true_iff in Hplain as [_ Hplain].
  destruct (head (rows_where "claim_id" key (claims (db e)))) as [c|] eqn:Hc; [|done].
  destruct (head (rows_where "claim_id" key (fraud_flags (db e)))) as [f|] eqn:Hf; [|done].
  apply andb_true_iff in Hinv as [Hinv Hctx].
  apply andb_true_iff in Hinv as [Hclaim Hflags].
  destruct (key_in c "provider_id") as [pk|] eqn:Hpk; [|done].
  destruct (key_in c "patient_id") as [ptk|] eqn:Hptk; [|done].
  apply andb_true_iff in Hctx as [Hprov Hpat].
  destruct (key_in_plain _ _ _ Hpk) as (pid & Hpid & Hpidk & Hpidp).
  destruct (key_in_plain _ _ _ Hptk) as (ptid & Hptid & Hptidk & Hptidp).
  set (pctx := {| summary := summary_of "provider_id" pk (providers (db e));
                  recent_claims := recent ["claim_amount"; "claim_date"; "status"; "is_fraud"]
                                     "provider_id" pk (db e) |}).
  set (ptctx := {| summary := summary_of "patient_id" ptk (patients (db e));
                   recent_claims := recent ["claim_amount"; "claim_date"; "provider_specialty"; "is_fraud"]
                                     "patient_id" ptk (db e) |}).
  destruct (investigation_prompt_renders c pctx ptctx f Hclaim Hflags Hprov Hpat)
    as [prompt Hprompt].
  set (t6 := add_query (fraud_flags_query key)
              (add_query (patient_recent_query ptk) (add_query (patient_query ptk)
                (add_query (provider_recent_query pk) (add_query (provider_query pk)
                  (add_query (claim_query key) t)))))).
  destruct (Hans (length (requests t6)) (analysis_request e prompt "")) as [analysis Han].
  assert (is_ok (subscript (Some c) "claim_amount")) as [amount Hamount].
  { unfold _build_investigation_prompt in Hprompt.
    destruct (fstring_part _ _ 9%nat _ Hprompt eq_refl) as [a Ha].
    apply fld_f2_Ok in Ha as (v & Hv & _). by exists v. }
  assert (is_ok (subscript (Some c) "provider_specialty")) as [specialty Hspec].
  { unfold _build_investigation_prompt in Hprompt.
    destruct (fstring_part _ _ 17%nat _ Hprompt eq_refl) as [a Ha].
    apply fld_Ok in Ha as (v & Hv & _). by exists v. }
  eexists _, (add_request (analysis_request e prompt "") t6), c, pk, ptk, f, prompt, analysis.
  split.
  { unfold investigate_claim.
    erewrite bind_run_Ok by (by rewrite (investigation_claim_details _ _ (VStr key) key eq_refl), Hplain, Hc); cbv beta iota.
    erewrite bind_run_Ok by (by unfold lift; rewrite Hpid); cbv beta iota.
    erewrite bind_run_Ok by (by apply provider_context_run); cbv beta iota.
    erewrite bind_run_Ok by (by unfold lift; rewrite Hptid); cbv beta iota.
    erewrite bind_run_Ok by (by apply patient_context_run); cbv beta iota.
    erewrite bind_run_Ok by (by rewrite (investigation_fraud_flags _ _ (VStr key) key eq_refl), Hplain, Hf); cbv beta iota.
    erewrite bind_run_Ok by (by unfold lift; fold pctx ptctx; rewrite Hprompt); cbv beta iota.
    erewrite bind_run_Ok by (by rewrite analyze_fraud_run; fold t6; rewrite Han); cbv beta iota.
    erewrite bind_run_Ok by (by unfold lift; rewrite Hamount); cbv beta iota.
    erewrite bind_run_Ok by (by unfold lift; rewrite Hpid); cbv beta iota.
    erewrite bind_run_Ok by (by unfold lift; rewrite Hspec); cbv beta iota.
    reflexivity. }
  repeat split; try done. by eexists _, _.
Qed.

End Rendering.

(** * The claims *)

Section PromptClaims.

Import InvestigationAgent.
Local Open Scope nat_scope.




(** C4 (as amended).  Whenever the explanation prompt renders, it contains
    the sentence that tells the model not to use jargon, and that
    sentence spells the jargon out: the prompt contains Z-score and
    statistical outlier.  The upstream technical explanation is pasted
    into the prompt as it is. *)
Theorem explanation_prompt_names_jargon claim fraud_info investigation prompt :
  ExplanationAgent._build_explanation_prompt claim fraud_info investigation
    = Ok prompt ->
  contains ("Do not use jargon like " +:+ ExplanationAgent.dq +:+ "Z-score" +:+
            ExplanationAgent.dq +:+ " or " +:+ ExplanationAgent.dq +:+
            "statistical outlier" +:+ ExplanationAgent.dq) prompt /\
  contains "Z-score" prompt /\ contains "outlier" prompt /\
  exists explanation x,
    subscript fraud_info "explanation" = Ok explanation /\
    str explanation = Ok x /\
    contains ("- Technical Explanation: " +:+ x) prompt.
Proof.
  intros H. unfold ExplanationAgent._build_explanation_prompt in H.
  piece H 43 8. piece H 45 1. piece H 49 1. piece H 30 2.
  part_ok H 31 x Hx. rewrite Hx in Hpiece2. cbn [force] in *. clear H.
  apply fld_Ok in Hx as (explanation & Hexp & Hx).
  split; [done|]. split; [done|]. split.
  - eapply contains_trans; [|exact Hpiece1]. occurs_closed.
  - by exists explanation, x.
Qed.

Lemma explanation_prompt_names_jargon_witness :
  exists prompt,
    ExplanationAgent._build_explanation_prompt
      (Some (sample_claim "C100" "P1" "PT1" (15000 # 1)))
      (Some (sample_flag "C100" 85 "high_amount,duplicate_billing")) None
      = Ok prompt /\
    contains "Z-score" prompt /\
    contains "- Technical Explanation: Amount far above specialty peers" prompt.
Proof.
  assert (exists prompt,
    ExplanationAgent._build_explanation_prompt
      (Some (sample_claim "C100" "P1" "PT1" (15000 # 1)))
      (Some (sample_flag "C100" 85 "high_amount,duplicate_billing")) None
      = Ok prompt) as [prompt H] by (eexists; vm_compute; reflexivity).
  exists prompt. split; [exact H|].
  destruct (explanation_prompt_names_jargon _ _ _ _ H)
    as (_ & Hz & _ & explanation & x & Hexp & Hx & Hc).
  split; [exact Hz|].
  vm_compute in Hexp. injection Hexp as <-. injection Hx as <-. exact Hc.
Defined.

(** C4, counterexample.  The explanation prompt of a well-formed bundle
    contains the word outlier. *)
Lemma explanation_prompt_contains_outlier :
  exists prompt,
    ExplanationAgent._build_explanation_prompt
      (Some (sample_claim "C100" "P1" "PT1" (15000 # 1)))
      (Some (sample_flag "C100" 85 "high_amount,duplicate_billing")) None
      = Ok prompt /\
    contains "outlier" prompt.
Proof.
  eexists. split; [vm_compute; reflexivity|]. occurs_closed.
Qed.

End PromptClaims.

(** ** Missing provider and patient records *)



(** An investigable claim is investigated with the summaries of the
    provider and the patient it refers to. *)
Lemma investigate_referenced e t key pk ptk :
  investigable (db e) key = true -> answers e ->
  referenced (db e) key "provider_id" = Some pk ->
  referenced (db e) key "patient_id" = Some ptk ->
  exists r t' c f pctx ptctx prompt analysis,
    InvestigationAgent.investigate_claim (VStr key) e t = (Ok r, t') /\
    r !! "claim_id" = Some (VStr key) /\ r !! "analysis" = Some analysis /\
    requests t' = requests t ++ [analysis_request e prompt ""] /\
    InvestigationAgent.summary pctx = summary_of "provider_id" pk (providers (db e)) /\
    InvestigationAgent.summary ptctx = summary_of "patient_id" ptk (patients (db e)) /\
    InvestigationAgent._build_investigation_prompt c pctx ptctx f = Ok prompt.
Proof.
  intros Hinv Hans Hpk Hptk.
  destruct (investigate_claim_returns e t key Hinv Hans)
    as (r & t' & c & pk' & ptk' & f & prompt & analysis & Hrun & Hc & Hf & Hpk' & Hptk'
        & (rp & rpt & Hprompt) & Hreq & Hid & Han).
  unfold referenced in Hpk, Hptk. rewrite Hc in Hpk, Hptk.
  assert (pk' = pk) as -> by congruence.
  assert (ptk' = ptk) as -> by congruence.
  eexists r, t', _, _, _, _, prompt, analysis.
  repeat split; try done; try exact Hprompt; reflexivity.
Qed.




(** ** What reaches the completion service *)

(** A run of [investigate_claim] asks nothing of the completion service,
    or it asks once: the request is the investigation prompt wrapped by
    [analyze_fraud], and what the service does with it decides how the
    run ends. *)
Lemma investigate_claim_requests cid e t o t' :
  InvestigationAgent.investigate_claim cid e t = (o, t') ->
  requests t' = requests t \/
  exists claim pctx ptctx flags prompt,
    InvestigationAgent._build_investigation_prompt claim pctx ptctx flags = Ok prompt /\
    requests t' = requests t ++ [analysis_request e prompt ""] /\
    match backend e (length (requests t)) (analysis_request e prompt "") with
    | Ok analysis => exists r, o = Ok r /\ r !! "analysis" = Some analysis
    | Raise x => o = Raise x
    | Unmodelled => o = Unmodelled
    end.
Proof.
  unfold InvestigationAgent.investigate_claim. intros H.
  pose proof (quiet_claim_details cid e t) as Q1.
  unfold bind at 1 in H.
  destruct (InvestigationAgent._get_claim_details cid e t) as [[claim| |] t1];
    simpl in Q1; [|injection H as <- <-; by left..].
  destruct claim as [c|].
  2: { left. rewrite <- Q1. clear Q1.
       change t' with (o, t').2. rewrite <- H. clear H. revert e t1. quiet. }
  cbv beta iota in H. unfold bind at 1 in H. unfold lift at 1 in H.
  destruct (subscript (Some c) "provider_id") as [pid| |] eqn:Hpid;
    [|injection H as <- <-; by left..].
  pose proof (quiet_provider_context pid e t1) as Q2.
  cbv beta iota in H. unfold bind at 1 in H.
  destruct (InvestigationAgent._get_provider_context pid e t1) as [[pctx| |] t2];
    simpl in Q2; [|injection H as <- <-; left; congruence..].
  cbv beta iota in H. unfold bind at 1 in H. unfold lift at 1 in H.
  destruct (subscript (Some c) "patient_id") as [ptid| |];
    [|injection H as <- <-; left; congruence..].
  pose proof (quiet_patient_context ptid e t2) as Q3.
  cbv beta iota in H. unfold bind at 1 in H.
  destruct (InvestigationAgent._get_patient_context ptid e t2) as [[ptctx| |] t3];
    simpl in Q3; [|injection H as <- <-; left; congruence..].
  pose proof (quiet_fraud_flags cid e t3) as Q4.
  cbv beta iota in H. unfold bind at 1 in H.
  destruct (InvestigationAgent._get_fraud_flags cid e t3) as [[flags| |] t4];
    simpl in Q4; [|injection H as <- <-; left; congruence..].
  cbv beta iota in H. unfold bind at 1 in H. unfold lift at 1 in H.
  destruct (InvestigationAgent._build_investigation_prompt (Some c) pctx ptctx flags)
    as [prompt| |] eqn:Hprompt; [|injection H as <- <-; left; congruence..].
  right. exists (Some c), pctx, ptctx, flags, prompt. split; [done|].
  cbv beta iota in H. unfold bind at 1 in H. rewrite analyze_fraud_run in H.
  assert (requests t4 = requests t) as Q5 by congruence.
  rewrite Q5 in H.
  assert (is_ok (subscript (Some c) "claim_amount")) as [amount Hamount].
  { unfold InvestigationAgent._build_investigation_prompt in Hprompt.
    destruct (fstring_part _ _ 9%nat _ Hprompt eq_refl) as [a Ha].
    apply fld_f2_Ok in Ha as (v & Hv & _). by exists v. }
  assert (is_ok (subscript (Some c) "provider_specialty")) as [specialty Hspec].
  { unfold InvestigationAgent._build_investigation_prompt in Hprompt.
    destruct (fstring_part _ _ 17%nat _ Hprompt eq_refl) as [a Ha].
    apply fld_Ok in Ha as (v & Hv & _). by exists v. }
  destruct (backend e (length (requests t)) (analysis_request e prompt ""))
    as [analysis| |].
  - cbv beta iota in H. unfold bind, lift, ret in H.
    rewrite Hamount, ?Hpid, Hspec in H. injection H as <- <-.
    split; [simpl; by rewrite Q5|]. eexists. split; [reflexivity|].
    by simplify_map_eq.
  - injection H as <- <-. split; [simpl; by rewrite Q5|done].
  - injection H as <- <-. split; [simpl; by rewrite Q5|done].
Qed.

Lemma analyze_template_wraps claim_data context :
  contains claim_data (LLMClient.analyze_template claim_data context) /\
  contains ("3. Investigation priority (Low/Medium/High)" +:+ nl)
    (LLMClient.analyze_template claim_data context).
Proof.
  unfold LLMClient.analyze_template. split.
  - do 5 apply contains_skip. apply contains_head.
  - do 17 apply contains_skip. apply contains_refl.
Qed.

Lemma investigation_prompt_instructions claim pctx ptctx flags prompt :
  InvestigationAgent._build_investigation_prompt claim pctx ptctx flags = Ok prompt ->
  contains "INVESTIGATION PRIORITY: [Low/Medium/High/Critical]" prompt /\
  contains "RECOMMENDATION: [Approve/Deny/Request More Info/Escalate]" prompt.
Proof.
  intros H. unfold InvestigationAgent._build_investigation_prompt in H.
  piece H 82%nat 1%nat. piece H 84%nat 1%nat. done.
Qed.

(** C10.  Whatever [analyze_fraud] is given, the message it builds asks
    for an investigation priority on the three-level scale
    (Low/Medium/High).  [investigate_claim] hands it the investigation
    prompt, so whenever an investigation reaches the completion service
    it asks it once, with one request of one user message, and that
    message holds both the three-level instruction of the wrapper and the
    four-level instruction and the recommendation line of the prompt.
    What the service answers to that very request is the analysis of the
    report, and when the service fails the run fails with it. *)
Theorem conflicting_priority_instructions cid e t o t' :
  InvestigationAgent.investigate_claim cid e t = (o, t') ->
  requests t' <> requests t ->
  (exists m,
     let req := {| req_model := model e; req_messages := [m];
                   req_temperature := 3 # 10 |} in
     requests t' = requests t ++ [req] /\
     match backend e (length (requests t)) req with
     | Ok analysis => exists r, o = Ok r /\ r !! "analysis" = Some analysis
     | Raise x => o = Raise x
     | Unmodelled => o = Unmodelled
     end /\
     role m = "user" /\
     contains "Investigation priority (Low/Medium/High)" (content m) /\
     contains "INVESTIGATION PRIORITY: [Low/Medium/High/Critical]" (content m) /\
     contains "RECOMMENDATION: [Approve/Deny/Request More Info/Escalate]" (content m)) /\
  (forall claim_data context,
     contains "Investigation priority (Low/Medium/High)"
       (LLMClient.analyze_template claim_data context)).
Proof.
  intros Hrun Hsent.
  assert (forall claim_data context,
     contains "Investigation priority (Low/Medium/High)"
       (LLMClient.analyze_template claim_data context)) as Hwrap.
  { intros cd ctx.
    eapply contains_trans; [|apply (proj2 (analyze_template_wraps cd ctx))].
    occurs_closed. }
  split; [|exact Hwrap].
  destruct (investigate_claim_requests _ _ _ _ _ Hrun)
    as [Hquiet|(claim & pctx & ptctx & flags & prompt & Hprompt & Hreq & Hout)]; [done|].
  exists {| role := "user"; content := LLMClient.analyze_template prompt "" |}.
  split; [exact Hreq|]. split; [exact Hout|]. split; [done|]. split; [apply Hwrap|].
  destruct (investigation_prompt_instructions _ _ _ _ _ Hprompt) as [Hp Hr].
  split; (eapply contains_trans; [|apply (proj1 (analyze_template_wraps prompt ""))]);
    assumption.
Qed.

Lemma conflicting_priority_instructions_witness :
  exists r t' m,
    InvestigationAgent.investigate_claim (VStr "C100") (online sample_db) start
      = (Ok r, t') /\
    requests t' =
      [ {| req_model := model (online sample_db); req_messages := [m];
           req_temperature := 3 # 10 |} ] /\
    r !! "analysis" = Some (VStr "FRAUD LIKELIHOOD: 9") /\
    contains "Investigation priority (Low/Medium/High)" (content m) /\
    contains "INVESTIGATION PRIORITY: [Low/Medium/High/Critical]" (content m).
Proof.
  destruct (investigate_referenced (online sample_db) start "C100" "P1" "PT1")
    as (r & t' & c & f & pctx & ptctx & prompt & analysis & Hrun & _ & _ & Hreq & _).
  { vm_compute. reflexivity. }
  { intros n req. by eexists. }
  { vm_compute. reflexivity. }
  { vm_compute. reflexivity. }
  destruct (conflicting_priority_instructions (VStr "C100") (online sample_db) start
              (Ok r) t' Hrun) as [(m & Hm & Hout & Hrole & H3 & H4 & _) _].
  { rewrite Hreq. simpl. discriminate. }
  simpl in Hout. destruct Hout as (r' & [= <-] & Han).
  exists r, t', m. repeat split; try done.
Defined.

(** C9.  [analyze_fraud] asks the completion service once, with a request
    for the client's model whose temperature is 0.3, whatever the claim
    data and the context, and hands back what the service answers (or
    fails as the service fails).  [chat] called without a temperature
    asks it with the temperature 0.7, and with one it asks with that
    one.  In each case that request is the one added to the requests
    made. *)
Theorem request_temperatures e t :
  (forall claim_data context,
     let req := {| req_model := model e;
                   req_messages :=
                     [ {| role := "user";
                          content := LLMClient.analyze_template claim_data context |} ];
                   req_temperature := 3 # 10 |} in
     LLMClient.analyze_fraud claim_data context e t =
       (backend e (length (requests t)) req,
        {| queries := queries t; requests := requests t ++ [req] |})) /\
  (forall messages,
     let req := {| req_model := model e; req_messages := messages;
                   req_temperature := 7 # 10 |} in
     LLMClient.chat messages None e t =
       (backend e (length (requests t)) req,
        {| queries := queries t; requests := requests t ++ [req] |})) /\
  (forall messages temperature,
     let req := {| req_model := model e; req_messages := messages;
                   req_temperature := temperature |} in
     LLMClient.chat messages (Some temperature) e t =
       (backend e (length (requests t)) req,
        {| queries := queries t; requests := requests t ++ [req] |})) /\
  LLMClient.default_temperature = 7 # 10.
Proof.
  repeat split; intros; unfold LLMClient.analyze_fraud; by rewrite chat_run.
Qed.

(** ** The text of the lookups *)

Lemma append_inj_l s s1 s2 : s1 +:+ s = s2 +:+ s -> s1 = s2.
Proof.
  intros H. apply (f_equal list_ascii_of_string) in H.
  rewrite !list_ascii_app in H. apply app_inv_tail in H.
  apply (f_equal string_of_list_ascii) in H.
  by rewrite !string_of_list_ascii_of_string in H.
Qed.

Lemma quoted_key_inj pre post k1 k2 :
  pre +:+ k1 +:+ post = pre +:+ k2 +:+ post -> k1 = k2.
Proof. intros H%String.app_inj. by apply append_inj_l in H. Qed.

Lemma provider_context_queries pid key e t :
  str pid = Ok key ->
  exists rest,
    queries (InvestigationAgent._get_provider_context pid e t).2 =
      queries t ++ InvestigationAgent.provider_query key :: rest.
Proof.
  intros Hkey.
  unfold InvestigationAgent._get_provider_context, bind, lift, read_sql_query.
  rewrite Hkey. destruct (plain key); simpl.
  - eexists. by rewrite <- app_assoc.
  - by exists [].
Qed.

Lemma patient_context_queries pid key e t :
  str pid = Ok key ->
  exists rest,
    queries (InvestigationAgent._get_patient_context pid e t).2 =
      queries t ++ InvestigationAgent.patient_query key :: rest.
Proof.
  intros Hkey.
  unfold InvestigationAgent._get_patient_context, bind, lift, read_sql_query.
  rewrite Hkey. destruct (plain key); simpl.
  - eexists. by rewrite <- app_assoc.
  - by exists [].
Qed.

(** C8, as the code has it.  Every lookup by key builds its statement by
    pasting the rendered key between single quotes into a fixed text, and
    submits that text: the claim and fraud-flag lookups of both agents
    submit exactly one statement, the provider and patient lookups submit
    the summary statement first.  The text holds the key verbatim and
    determines it: two different keys never give the same statement. *)
Theorem lookup_text_interpolates_key e t cid key :
  str cid = Ok key ->
  queries (InvestigationAgent._get_claim_details cid e t).2 =
    queries t ++ [ "SELECT * FROM claims WHERE claim_id = '" +:+ key +:+ "'" ] /\
  queries (InvestigationAgent._get_fraud_flags cid e t).2 =
    queries t ++ [ "SELECT * FROM fraud_flags WHERE claim_id = '" +:+ key +:+ "'" ] /\
  queries (ExplanationAgent._get_fraud_info cid e t).2 =
    queries t ++ [ "SELECT * FROM fraud_flags WHERE claim_id = '" +:+ key +:+ "'" ] /\
  queries (ExplanationAgent._get_claim_details cid e t).2 =
    queries t ++ [ "SELECT * FROM claims WHERE claim_id = '" +:+ key +:+ "'" ] /\
  (exists rest,
     queries (InvestigationAgent._get_provider_context cid e t).2 =
       queries t ++
       ("SELECT * FROM providers WHERE provider_id = '" +:+ key +:+ "'") :: rest) /\
  (exists rest,
     queries (InvestigationAgent._get_patient_context cid e t).2 =
       queries t ++
       ("SELECT * FROM patients WHERE patient_id = '" +:+ key +:+ "'") :: rest) /\
  contains key (InvestigationAgent.claim_query key) /\
  contains key (ExplanationAgent.fraud_info_query key) /\
  (forall key',
     InvestigationAgent.claim_query key' = InvestigationAgent.claim_query key ->
     key' = key) /\
  (forall key',
     ExplanationAgent.fraud_info_query key' = ExplanationAgent.fraud_info_query key ->
     key' = key).
Proof.
  intros Hkey.
  rewrite (investigation_claim_details e t cid key Hkey),
    (investigation_fraud_flags e t cid key Hkey),
    (explanation_fraud_info e t cid key Hkey),
    (explanation_claim_details e t cid key Hkey).
  repeat split; try done.
  - by apply provider_context_queries.
  - by apply patient_context_queries.
  - apply contains_skip, contains_head.
  - apply contains_skip, contains_head.
  - intros key'. apply quoted_key_inj.
  - intros key'. apply quoted_key_inj.
Qed.

Lemma lookup_text_interpolates_key_witness :
  queries (InvestigationAgent._get_claim_details (VStr "C100") (online sample_db) start).2 =
    [ "SELECT * FROM claims WHERE claim_id = 'C100'" ] /\
  queries (ExplanationAgent._get_fraud_info (VInt 7) (online sample_db) start).2 =
    [ "SELECT * FROM fraud_flags WHERE claim_id = '7'" ].
Proof.
  split.
  - exact (proj1 (lookup_text_interpolates_key (online sample_db) start
                    (VStr "C100") "C100" eq_refl)).
  - exact (proj1 (proj2 (proj2 (lookup_text_interpolates_key (online sample_db) start
                    (VInt 7) "7" eq_refl)))).
Defined.

(** The text sent to the engine changes with the key, and a key holding
    a quote is pasted into it as it is. *)
Lemma lookup_text_depends_on_key :
  queries (InvestigationAgent._get_claim_details (VStr "C100") (online sample_db) start).2
    <> queries (InvestigationAgent._get_claim_details (VStr "C200") (online sample_db) start).2
  /\ queries (ExplanationAgent._get_fraud_info (VStr "x' OR '1'='1")
                (online sample_db) start).2 =
       [ "SELECT * FROM fraud_flags WHERE claim_id = 'x' OR '1'='1'" ].
Proof. split; [vm_compute; discriminate | vm_compute; reflexivity]. Qed.

(** ** Loops *)

Lemma for_each_Ok {A B} (xs : list A) (body : A -> M B) e t ys t' :
  for_each xs body e t = (Ok ys, t') ->
  Forall2 (fun x y => exists t1 t2, body x e t1 = (Ok y, t2)) xs ys.
Proof.
  revert t ys t'. induction xs as [|x xs IH]; intros t ys t' H; simpl in H.
  - apply ret_Ok in H as [-> _]. constructor.
  - apply bind_Ok in H as (y & t1 & Hy & H).
    apply bind_Ok in H as (ys' & t2 & Hys & H).
    apply ret_Ok in H as [-> _].
    constructor; [by exists t, t1 | by eapply IH].
Qed.


(** ** Reports *)

Lemma investigate_claim_not_found e t key :
  plain key = true ->
  head (rows_where "claim_id" key (claims (db e))) = None ->
  InvestigationAgent.investigate_claim (VStr key) e t =
    (Ok (not_found_report key), add_query (InvestigationAgent.claim_query key) t).
Proof.
  intros Hplain Hnone. unfold InvestigationAgent.investigate_claim.
  rewrite (bind_run_Ok _ _ e t None (add_query (InvestigationAgent.claim_query key) t)).
  2: { rewrite (investigation_claim_details e t (VStr key) key eq_refl).
       by rewrite Hplain, Hnone. }
  reflexivity.
Qed.

Lemma batch_entry_fields cid e t (r : dict) t' :
  (explanation <- ExplanationAgent.explain_fraud_case cid None ;;
   ret ({[ "claim_id" := cid; "explanation" := explanation ]} : dict)) e t = (Ok r, t') ->
  exists explanation,
    ExplanationAgent.explain_fraud_case cid None e t = (Ok explanation, t') /\
    r = {[ "claim_id" := cid; "explanation" := explanation ]}.
Proof.
  intros H. apply bind_Ok in H as (x & t1 & Hx & H).
  apply ret_Ok in H as [-> ->]. by exists x.
Qed.

(** C5, as the code has it.  A report that [investigate_claim] returns
    carries the claim id it was asked about in its field claim_id, unless
    the claim is not in the claims table: then the report is the dict with
    the single field error, whose text names the id, and it has no field
    claim_id.  Every entry of the list that [generate_fraud_report]
    returns carries the id it was generated for in its field claim_id. *)
Theorem report_claim_id_field e t :
  (forall cid r t',
     InvestigationAgent.investigate_claim cid e t = (Ok r, t') ->
     (r !! "claim_id" = Some cid /\ is_Some (r !! "analysis")) \/
     (exists key,
        str cid = Ok key /\
        head (rows_where "claim_id" key (claims (db e))) = None /\
        r = {[ "error" := VStr ("Claim " +:+ key +:+ " not found") ]} /\
        r !! "claim_id" = None)) /\
  (forall ids rs t',
     ExplanationAgent.generate_fraud_report ids e t = (Ok rs, t') ->
     Forall2 (fun cid r => r !! "claim_id" = Some cid /\ is_Some (r !! "explanation"))
       ids rs).
Proof.
  split.
  - intros cid r t' H.
    destruct (investigate_claim_Ok _ _ _ _ _ H) as (key & [Hkey Hplain] & [Hnf | Hf]).
    + right. destruct Hnf as (Hnone & -> & _). exists key. by repeat split.
    + left. destruct Hf as (c & pctx & ptctx & pid & pk & ptid & ptk & prompt & analysis
        & amount & provider & specialty & _ & _ & _ & _ & _ & _ & _ & _ & _ & _ & ->).
      split; [by simplify_map_eq|]. exists analysis. by simplify_map_eq.
  - intros ids rs t' H. apply for_each_Ok in H.
    eapply Forall2_impl; [exact H|].
    intros cid r (t1 & t2 & Hr). simpl in Hr.
    apply batch_entry_fields in Hr as (x & _ & ->).
    split; [by simplify_map_eq|]. exists x. by simplify_map_eq.
Qed.

Lemma report_claim_id_field_witness :
  exists r t',
    InvestigationAgent.investigate_claim (VStr "C100") (online sample_db) start
      = (Ok r, t') /\
    r !! "claim_id" = Some (VStr "C100").
Proof.
  destruct (investigate_referenced (online sample_db) start "C100" "P1" "PT1")
    as (r & t' & c & f & pctx & ptctx & prompt & analysis & Hrun & _).
  { vm_compute. reflexivity. }
  { intros n req. by eexists. }
  { vm_compute. reflexivity. }
  { vm_compute. reflexivity. }
  exists r, t'. split; [exact Hrun|].
  destruct (proj1 (report_claim_id_field (online sample_db) start) _ _ _ Hrun)
    as [[Hid _]|(key & Hkey & Hnone & _)]; [exact Hid|].
  injection Hkey as <-.
  assert (referenced (db (online sample_db)) "C100" "provider_id" = Some "P1") as Href
    by (vm_compute; reflexivity).
  unfold referenced in Href. rewrite Hnone in Href. discriminate.
Defined.

(** The report for a claim that is not in the table has no claim_id. *)
Lemma not_found_report_lacks_claim_id :
  exists r t',
    InvestigationAgent.investigate_claim (VStr "NOPE") (online sample_db) start
      = (Ok r, t') /\
    r = {[ "error" := VStr "Claim NOPE not found" ]} /\
    r !! "claim_id" = None.
Proof.
  eexists _, _. split.
  - apply investigate_claim_not_found; vm_compute; reflexivity.
  - split; [reflexivity|]. by apply lookup_singleton_ne.
Qed.

(** ** A claim without a fraud flag *)

Lemma fstring_raise_at parts i x :
  parts !! i = Some (Raise x) -> Forall is_ok (take i parts) -> fstring parts = Raise x.
Proof.
  revert i. induction parts as [|p parts IH]; intros [|i] Hi Hall; try done.
  - simpl in Hi. by injection Hi as ->.
  - simpl in Hi, Hall. apply Forall_cons in Hall as [[s ->] Hall].
    simpl. by rewrite (IH i Hi Hall).
Qed.

Lemma investigation_prompt_needs_flags claim pctx ptctx prompt :
  InvestigationAgent._build_investigation_prompt claim pctx ptctx None <> Ok prompt.
Proof.
  intros H. unfold InvestigationAgent._build_investigation_prompt in H.
  part_ok H 33%nat r Hr. done.
Qed.

Lemma investigation_prompt_without_flags c pctx ptctx :
  claim_renders c = true ->
  InvestigationAgent._build_investigation_prompt (Some c) pctx ptctx None
    = Raise TypeError.
Proof.
  unfold claim_renders. rewrite !andb_true_iff.
  intros ((((((((? & ?) & ?) & ?) & ?) & ?) & ?) & ?) & ?).
  unfold InvestigationAgent._build_investigation_prompt.
  apply (fstring_raise_at _ 33%nat); [done|].
  cbv [take firstn].
  repeat (apply Forall_cons; split);
    first [ by apply Forall_nil | apply lit_ok
          | by apply has_text_fld | by apply has_number_fld ].
Qed.

(** C1, as the code behaves.  When the claim record of an id exists and
    its fraud-flag record does not, [investigate_claim] never returns a
    report.  When moreover the claim record renders and names its provider
    and patient by plain keys, the run raises TypeError: [_get_fraud_flags]
    hands out None and the prompt template subscripts it.  The failure
    comes before the completion service is called. *)
Theorem unflagged_claim_investigation_raises e t key c :
  plain key = true ->
  head (rows_where "claim_id" key (claims (db e))) = Some c ->
  head (rows_where "claim_id" key (fraud_flags (db e))) = None ->
  (forall r, (InvestigationAgent.investigate_claim (VStr key) e t).1 <> Ok r) /\
  (claim_renders c = true ->
   is_Some (key_in c "provider_id") -> is_Some (key_in c "patient_id") ->
   (InvestigationAgent.investigate_claim (VStr key) e t).1 = Raise TypeError /\
   requests (InvestigationAgent.investigate_claim (VStr key) e t).2 = requests t).
Proof.
  intros Hplain Hc Hf. split.
  - intros r Hr.
    destruct (InvestigationAgent.investigate_claim (VStr key) e t) as [o t'] eqn:Hrun.
    simpl in Hr. subst o.
    apply investigate_claim_Ok in Hrun as (key' & [[= <-] _] & [Hnf|Hfound]).
    + destruct Hnf as (Hnone & _). congruence.
    + destruct Hfound as (c' & pctx & ptctx & pid & pk & ptid & ptk & prompt & analysis
        & amount & provider & specialty & _ & _ & _ & _ & _ & _ & _ & Hprompt & _).
      rewrite Hf in Hprompt. by apply investigation_prompt_needs_flags in Hprompt.
  - intros Hrend [pk Hpk] [ptk Hptk].
    destruct (key_in_plain _ _ _ Hpk) as (pid & Hpid & Hpidk & Hpidp).
    destruct (key_in_plain _ _ _ Hptk) as (ptid & Hptid & Hptidk & Hptidp).
    unfold InvestigationAgent.investigate_claim.
    erewrite bind_run_Ok
      by (by rewrite (investigation_claim_details _ _ (VStr key) key eq_refl), Hplain, Hc);
      cbv beta iota.
    erewrite bind_run_Ok by (by unfold lift; rewrite Hpid); cbv beta iota.
    erewrite bind_run_Ok by (by apply provider_context_run); cbv beta iota.
    erewrite bind_run_Ok by (by unfold lift; rewrite Hptid); cbv beta iota.
    erewrite bind_run_Ok by (by apply patient_context_run); cbv beta iota.
    erewrite bind_run_Ok
      by (by rewrite (investigation_fraud_flags _ _ (VStr key) key eq_refl), Hplain, Hf);
      cbv beta iota.
    erewrite bind_run_Raise
      by (by unfold lift; rewrite investigation_prompt_without_flags).
    done.
Qed.

Lemma unflagged_claim_investigation_raises_witness :
  (InvestigationAgent.investigate_claim (VStr "C200") (online sample_db) start).1
    = Raise TypeError /\
  requests (InvestigationAgent.investigate_claim (VStr "C200") (online sample_db) start).2
    = [].
Proof.
  refine (proj2 (unflagged_claim_investigation_raises (online sample_db) start "C200"
                   (sample_claim "C200" "P2" "PT2" (250 # 1)) _ _ _) _ _ _).
  - vm_compute. reflexivity.
  - reflexivity.
  - reflexivity.
  - vm_compute. reflexivity.
  - exists "P2". vm_compute. reflexivity.
  - exists "PT2". vm_compute. reflexivity.
Defined.

(** ** Explanations *)










(** ** The ranking of [investigate_top_cases] *)








(** * Further properties of the agents *)

(** ** Lookups that find nothing *)







(** ** The ranking loop *)





(** ** What a run leaves behind *)





(** ** Values at the edge of the prompt templates *)

(** What the investigation prompt shows for values that are missing or not
    numbers: an amount that is NaN is printed as $nan, a claim without the
    column amount_zscore gets the z-score 0.00, a z-score that is NaN is
    printed as nan, and a fraud score that is None is printed as
    None/100. *)
Theorem investigation_prompt_edge_values claim pctx ptctx flags prompt :
  InvestigationAgent._build_investigation_prompt claim pctx ptctx flags = Ok prompt ->
  (subscript claim "claim_amount" = Ok VNaN -> contains "- Amount: $nan" prompt) /\
  (forall c, claim = Some c -> c !! "amount_zscore" = None ->
     contains "CLAIM Z-SCORE: 0.00 (higher = more unusual for specialty)" prompt) /\
  (forall c, claim = Some c -> c !! "amount_zscore" = Some VNaN ->
     contains "CLAIM Z-SCORE: nan (higher = more unusual for specialty)" prompt) /\
  (subscript flags "fraud_score" = Ok VNone -> contains "- Fraud Score: None/100" prompt).
Proof.
  intros H. unfold InvestigationAgent._build_investigation_prompt in H.
  piece H 8%nat 2%nat. piece H 70%nat 3%nat. piece H 35%nat 3%nat. clear H.
  split; [|split; [|split]].
  - intros Ha. by rewrite Ha in Hpiece.
  - intros c -> Hz. unfold opt_get, get in Hpiece0. by rewrite Hz in Hpiece0.
  - intros c -> Hz. unfold opt_get, get in Hpiece0. by rewrite Hz in Hpiece0.
  - intros Hs. by rewrite Hs in Hpiece1.
Qed.

Lemma investigation_prompt_edge_values_witness :
  exists prompt,
    InvestigationAgent._build_investigation_prompt
      (Some (delete "amount_zscore" (sample_claim "C100" "P1" "PT1" (15000 # 1))))
      {| InvestigationAgent.summary := ∅; InvestigationAgent.recent_claims := [] |}
      {| InvestigationAgent.summary := ∅; InvestigationAgent.recent_claims := [] |}
      (Some (sample_flag "C100" 85 "high_amount")) = Ok prompt /\
    contains "CLAIM Z-SCORE: 0.00 (higher = more unusual for specialty)" prompt.
Proof.
  destruct (investigation_prompt_renders
              (delete "amount_zscore" (sample_claim "C100" "P1" "PT1" (15000 # 1)))
              {| InvestigationAgent.summary := ∅; InvestigationAgent.recent_claims := [] |}
              {| InvestigationAgent.summary := ∅; InvestigationAgent.recent_claims := [] |}
              (sample_flag "C100" 85 "high_amount")) as [prompt Hprompt];
    try (vm_compute; reflexivity).
  exists prompt. split; [exact Hprompt|].
  apply (proj1 (proj2 (investigation_prompt_edge_values _ _ _ _ _ Hprompt)) _ eq_refl).
  vm_compute. reflexivity.
Defined.

(** How the investigation prompt fails.  Without a claim it raises
    TypeError.  A claim record without the column claim_id raises KeyError
    for it.  When the claim id renders, an amount that is None raises
    TypeError and an amount that is a text raises ValueError: the format
    ",.2f" takes numbers only. *)
Theorem investigation_prompt_failures c pctx ptctx flags :
  InvestigationAgent._build_investigation_prompt None pctx ptctx flags = Raise TypeError /\
  (c !! "claim_id" = None ->
   InvestigationAgent._build_investigation_prompt (Some c) pctx ptctx flags
     = Raise (KeyError "claim_id")) /\
  (has_text c "claim_id" = true -> c !! "claim_amount" = Some VNone ->
   InvestigationAgent._build_investigation_prompt (Some c) pctx ptctx flags
     = Raise TypeError) /\
  (forall s, has_text c "claim_id" = true -> c !! "claim_amount" = Some (VStr s) ->
   InvestigationAgent._build_investigation_prompt (Some c) pctx ptctx flags
     = Raise ValueError).
Proof.
  split; [reflexivity|]. split; [|split].
  - intros Hid. unfold InvestigationAgent._build_investigation_prompt.
    apply (fstring_raise_at _ 6%nat).
    + simpl. unfold fld, subscript. by rewrite Hid.
    + cbv [take firstn]. repeat (apply Forall_cons; split);
        first [ by apply Forall_nil | apply lit_ok ].
  - intros Hid Ham. unfold InvestigationAgent._build_investigation_prompt.
    apply (fstring_raise_at _ 9%nat).
    + simpl. unfold fld_f2, subscript. by rewrite Ham.
    + cbv [take firstn]. repeat (apply Forall_cons; split);
        first [ by apply Forall_nil | apply lit_ok | by apply has_text_fld ].
  - intros s Hid Ham. unfold InvestigationAgent._build_investigation_prompt.
    apply (fstring_raise_at _ 9%nat).
    + simpl. unfold fld_f2, subscript. by rewrite Ham.
    + cbv [take firstn]. repeat (apply Forall_cons; split);
        first [ by apply Forall_nil | apply lit_ok | by apply has_text_fld ].
Qed.

Lemma investigation_prompt_failures_witness :
  InvestigationAgent._build_investigation_prompt
    (Some (<[ "claim_amount" := VStr "n/a" ]> (sample_claim "C100" "P1" "PT1" (15000 # 1))))
    {| InvestigationAgent.summary := ∅; InvestigationAgent.recent_claims := [] |}
    {| InvestigationAgent.summary := ∅; InvestigationAgent.recent_claims := [] |}
    None = Raise ValueError.
Proof.
  apply (proj2 (proj2 (proj2 (investigation_prompt_failures _ _ _ _))) "n/a");
    vm_compute; reflexivity.
Defined.

(** ** The context helpers *)




(** ** Ranked cases and their flags *)



(** * The dashboard utilities *)

(** ** [create_fraud_metrics] *)

Lemma column_Ok df col cells :
  UiUtils.column df col = Ok cells ->
  col ∈ UiUtils.columns df /\
  cells = (fun r => get r col VNaN) <$> UiUtils.records df.
Proof.
  unfold UiUtils.column. case_bool_decide; [|done]. by intros [= <-].
Qed.

Lemma where_one_Ok df col fdf :
  UiUtils.where_one df col = Ok fdf ->
  col ∈ UiUtils.columns df /\
  UiUtils.columns fdf = UiUtils.columns df /\
  UiUtils.records fdf =
    filter (fun r => UiUtils.eq_one (get r col VNaN)) (UiUtils.records df).
Proof.
  unfold UiUtils.where_one.
  destruct (UiUtils.column df col) as [cells| |] eqn:Hcol; [|done..].
  apply column_Ok in Hcol as [Hin _]. by intros [= <-].
Qed.

Lemma obind_Ok {A B} (o : outcome A) (k : A -> outcome B) b :
  obind o k = Ok b -> exists a, o = Ok a /\ k a = Ok b.
Proof. destruct o as [a| |]; [|done..]. intros H. by exists a. Qed.

Lemma rate_exact_bounds a b :
  (0 < b)%nat -> (a <= b)%nat ->
  (0 <= UiUtils.rate_exact (UiUtils.Percent a b) /\
   UiUtils.rate_exact (UiUtils.Percent a b) <= 100)%Q.
Proof.
  intros Hb Hab. unfold UiUtils.rate_exact, Qdiv, Qmult, Qinv, Qle. simpl.
  destruct (Z.of_nat b) as [|p|p] eqn:Hp; [lia| |lia]. simpl.
  assert (Z.of_nat a <= Z.pos p) by lia. split; nia.
Qed.

(** What the metrics count.  The total is the number of rows, the fraud
    count is the number of rows whose fraud_detected equals 1 (a missing
    value, as a claim that was never scored has, does not count), and it
    never exceeds the total.  The rate of an empty frame is the plain 0,
    without a division; otherwise it is fraud count by total times 100,
    a number between 0 and 100.  The two amounts are the sums of
    claim_amount over all rows and over the fraud rows. *)
Theorem fraud_metrics_counts series_sum df m :
  UiUtils.create_fraud_metrics series_sum df = Ok m ->
  UiUtils.total_claims m = length (UiUtils.records df) /\
  UiUtils.fraud_claims m = length (flagged_rows df) /\
  (UiUtils.fraud_claims m <= UiUtils.total_claims m)%nat /\
  (UiUtils.records df = [] -> UiUtils.fraud_rate m = UiUtils.Zero) /\
  (UiUtils.records df <> [] ->
   UiUtils.fraud_rate m =
     UiUtils.Percent (UiUtils.fraud_claims m) (UiUtils.total_claims m)) /\
  (0 <= UiUtils.rate_exact (UiUtils.fraud_rate m) /\
   UiUtils.rate_exact (UiUtils.fraud_rate m) <= 100)%Q /\
  series_sum ((fun r => get r "claim_amount" VNaN) <$> UiUtils.records df)
    = Ok (UiUtils.total_amount m) /\
  series_sum ((fun r => get r "claim_amount" VNaN) <$> flagged_rows df)
    = Ok (UiUtils.fraud_amount m).
Proof.
  unfold UiUtils.create_fraud_metrics. intros H.
  apply obind_Ok in H as (ta & Hta & H).
  apply obind_Ok in Hta as (cells & Hcells & Hta).
  apply column_Ok in Hcells as [_ ->].
  apply obind_Ok in H as (fdf & Hfdf & H).
  apply where_one_Ok in Hfdf as (_ & Hcols & Hrec).
  apply obind_Ok in H as (fa & Hfa & H).
  apply obind_Ok in Hfa as (fcells & Hfcells & Hfa).
  apply column_Ok in Hfcells as [_ ->].
  injection H as <-. simpl. rewrite Hrec in *. fold (flagged_rows df) in *.
  assert (length (flagged_rows df) <= length (UiUtils.records df))%nat as Hle
    by apply length_filter.
  repeat split; try done.
  - by intros ->.
  - intros Hne. destruct (UiUtils.records df); [done|]. done.
  - destruct (Nat.ltb_spec 0 (length (UiUtils.records df))); [|done].
    by apply rate_exact_bounds.
  - destruct (Nat.ltb_spec 0 (length (UiUtils.records df))); [|done].
    by apply rate_exact_bounds.
Qed.

Lemma fraud_metrics_counts_witness :
  exists m,
    UiUtils.create_fraud_metrics exact_sum sample_frame = Ok m /\
    UiUtils.total_claims m = 3%nat /\ UiUtils.fraud_claims m = 1%nat /\
    UiUtils.fraud_rate m = UiUtils.Percent 1 3.
Proof.
  destruct (UiUtils.create_fraud_metrics exact_sum sample_frame) as [m| |] eqn:Hm;
    [|vm_compute in Hm; discriminate..].
  exists m. split; [done|].
  destruct (fraud_metrics_counts exact_sum sample_frame m Hm)
    as (Ht & Hf & _ & _ & Hrate & _).
  rewrite Hrate by done. rewrite Ht, Hf. repeat split; vm_compute; reflexivity.
Defined.

(** How [create_fraud_metrics] fails and what it does on nothing.  A
    frame without the column claim_amount raises KeyError for it; one
    with it and without fraud_detected raises KeyError for that, once the
    first sum is taken.  On a frame with both columns and no rows it
    returns zero counts, the sum of nothing for both amounts and the
    rate 0; no division by zero takes place. *)
Theorem fraud_metrics_edges series_sum df :
  ("claim_amount" ∉ UiUtils.columns df ->
   UiUtils.create_fraud_metrics series_sum df = Raise (KeyError "claim_amount")) /\
  (forall x, "claim_amount" ∈ UiUtils.columns df ->
   series_sum ((fun r => get r "claim_amount" VNaN) <$> UiUtils.records df) = Ok x ->
   "fraud_detected" ∉ UiUtils.columns df ->
   UiUtils.create_fraud_metrics series_sum df = Raise (KeyError "fraud_detected")) /\
  (forall z, "claim_amount" ∈ UiUtils.columns df ->
   "fraud_detected" ∈ UiUtils.columns df ->
   UiUtils.records df = [] -> series_sum [] = Ok z ->
   UiUtils.create_fraud_metrics series_sum df =
     Ok {| UiUtils.total_claims := 0; UiUtils.total_amount := z;
           UiUtils.fraud_claims := 0; UiUtils.fraud_amount := z;
           UiUtils.fraud_rate := UiUtils.Zero |}).
Proof.
  unfold UiUtils.create_fraud_metrics, UiUtils.where_one, UiUtils.column.
  split; [|split].
  - intros Hno. by rewrite bool_decide_eq_false_2.
  - intros x Hin Hsum Hno. rewrite (bool_decide_eq_true_2 _ Hin). simpl.
    rewrite Hsum. simpl. by rewrite bool_decide_eq_false_2.
  - intros z Hin Hfd Hempty Hsum.
    rewrite (bool_decide_eq_true_2 _ Hin), (bool_decide_eq_true_2 _ Hfd), Hempty.
    simpl. rewrite (bool_decide_eq_true_2 _ Hin). simpl. by rewrite Hsum.
Qed.

Lemma fraud_metrics_edges_witness :
  UiUtils.create_fraud_metrics exact_sum
    {| UiUtils.columns := ["claim_id"; "claim_amount"; "fraud_detected"];
       UiUtils.records := [] |} =
    Ok {| UiUtils.total_claims := 0; UiUtils.total_amount := VInt 0;
          UiUtils.fraud_claims := 0; UiUtils.fraud_amount := VInt 0;
          UiUtils.fraud_rate := UiUtils.Zero |}.
Proof.
  apply (proj2 (proj2 (fraud_metrics_edges exact_sum _)) (VInt 0));
    first [ reflexivity | set_solver ].
Defined.

(** ** The rule names of [plot_fraud_by_rule] *)

Lemma split_comma_cons s : exists p ps, UiUtils.split_comma s = p :: ps.
Proof.
  destruct s as [|c s]; simpl; [by eexists _, _|].
  destruct (Ascii.eqb c ","); [by eexists _, _|].
  destruct (UiUtils.split_comma s); by eexists _, _.
Qed.

Lemma commas_cons c s :
  commas (String c s) = ((if Ascii.eqb c "," then 1 else 0) + commas s)%nat.
Proof.
  unfold commas. simpl. rewrite filter_cons.
  destruct (Ascii.eqb c ","); by case_decide.
Qed.

(** One piece more than there are commas. *)
Lemma split_comma_length s : length (UiUtils.split_comma s) = S (commas s).
Proof.
  induction s as [|c s IH]; [done|]. rewrite commas_cons. simpl.
  destruct (Ascii.eqb c ","); simpl; [by rewrite IH|].
  destruct (split_comma_cons s) as (p & ps & Hs). rewrite Hs in IH |- *.
  simpl in *. done.
Qed.

Lemma split_comma_no_comma s : Forall (fun p => commas p = 0%nat) (UiUtils.split_comma s).
Proof.
  induction s as [|c s IH]; simpl; [by repeat constructor|].
  destruct (Ascii.eqb c ",") eqn:Hc; [by constructor|].
  destruct (split_comma_cons s) as (p & ps & Hs). rewrite Hs in IH |- *.
  apply Forall_cons in IH as [Hp Hps]. constructor; [|done].
  by rewrite commas_cons, Hc.
Qed.

(** Putting the commas back gives the text back. *)
Lemma split_comma_join s :
  foldr (fun p acc => match acc with
                      | None => Some p
                      | Some rest => Some (p +:+ "," +:+ rest)
                      end) None (UiUtils.split_comma s) = Some s.
Proof.
  induction s as [|c s IH]; [done|]. simpl.
  destruct (Ascii.eqb_spec c ",") as [->|Hc].
  - simpl. by rewrite IH.
  - destruct (split_comma_cons s) as (p & ps & Hs). rewrite Hs in IH |- *.
    simpl in *. destruct (foldr _ None ps); by injection IH as <-.
Qed.

Lemma lstrip_suffix l : exists pre, l = pre ++ UiUtils.lstrip l.
Proof.
  enough (forall n l, (length l <= n)%nat -> exists pre, l = pre ++ UiUtils.lstrip l)
    as H by (by eapply H).
  clear l. intros n. induction n as [|n IH]; intros l Hl.
  - destruct l; [by exists []|simpl in Hl; lia].
  - destruct l as [|a [|b [|c r3]]]; simpl.
    + by exists [].
    + destruct (UiUtils.space1 a); [by exists [a]|by exists []].
    + destruct (UiUtils.space1 a).
      { destruct (IH [b]) as [pre Hpre]; [simpl in *; lia|].
        exists (a :: pre). simpl in Hpre. by rewrite Hpre at 1. }
      destruct (UiUtils.space2 a b); [by exists [a; b]|by exists []].
    + destruct (UiUtils.space1 a).
      { destruct (IH (b :: c :: r3)) as [pre Hpre]; [simpl in *; lia|].
        exists (a :: pre). by rewrite Hpre at 1. }
      destruct (UiUtils.space2 a b).
      { destruct (IH (c :: r3)) as [pre Hpre]; [simpl in *; lia|].
        exists (a :: b :: pre). by rewrite Hpre at 1. }
      destruct (UiUtils.space3 a b c); [|by exists []].
      destruct (IH r3) as [pre Hpre]; [simpl in *; lia|].
      exists (a :: b :: c :: pre). by rewrite Hpre at 1.
Qed.

Lemma rstrip_rev_suffix l : exists pre, l = pre ++ UiUtils.rstrip_rev l.
Proof.
  enough (forall n l, (length l <= n)%nat -> exists pre, l = pre ++ UiUtils.rstrip_rev l)
    as H by (by eapply H).
  clear l. intros n. induction n as [|n IH]; intros l Hl.
  - destruct l; [by exists []|simpl in Hl; lia].
  - destruct l as [|a [|b [|c r3]]]; simpl.
    + by exists [].
    + destruct (UiUtils.space1 a); [by exists [a]|by exists []].
    + destruct (UiUtils.space1 a).
      { destruct (IH [b]) as [pre Hpre]; [simpl in *; lia|].
        exists (a :: pre). simpl in Hpre. by rewrite Hpre at 1. }
      destruct (UiUtils.space2 b a); [by exists [a; b]|by exists []].
    + destruct (UiUtils.space1 a).
      { destruct (IH (b :: c :: r3)) as [pre Hpre]; [simpl in *; lia|].
        exists (a :: pre). by rewrite Hpre at 1. }
      destruct (UiUtils.space2 b a).
      { destruct (IH (c :: r3)) as [pre Hpre]; [simpl in *; lia|].
        exists (a :: b :: pre). by rewrite Hpre at 1. }
      destruct (UiUtils.space3 c b a); [|by exists []].
      destruct (IH r3) as [pre Hpre]; [simpl in *; lia|].
      exists (a :: b :: c :: pre). by rewrite Hpre at 1.
Qed.

(** Stripping cuts a text out of the middle of the text it is given. *)
Lemma strip_middle s :
  exists pre post,
    list_ascii_of_string s = pre ++ list_ascii_of_string (UiUtils.strip s) ++ post.
Proof.
  unfold UiUtils.strip. rewrite list_ascii_of_string_of_list_ascii.
  destruct (lstrip_suffix (list_ascii_of_string s)) as [pre Hpre].
  destruct (rstrip_rev_suffix (rev (UiUtils.lstrip (list_ascii_of_string s))))
    as [post Hpost].
  exists pre, (rev post). rewrite Hpre at 1. f_equal.
  rewrite <- rev_app_distr, <- Hpost. by rewrite rev_involutive.
Qed.

Lemma strip_commas s : (commas (UiUtils.strip s) <= commas s)%nat.
Proof.
  destruct (strip_middle s) as (pre & post & H). unfold commas.
  rewrite H, !filter_app, !length_app. lia.
Qed.

Lemma lstrip_length l : (length (UiUtils.lstrip l) <= length l)%nat.
Proof.
  destruct (lstrip_suffix l) as [pre Hpre]. rewrite Hpre at 2.
  rewrite length_app. lia.
Qed.

Lemma rstrip_rev_length l : (length (UiUtils.rstrip_rev l) <= length l)%nat.
Proof.
  destruct (rstrip_rev_suffix l) as [pre Hpre]. rewrite Hpre at 2.
  rewrite length_app. lia.
Qed.

Lemma lstrip_step l :
  UiUtils.lstrip l = l \/
  exists r, (length r < length l)%nat /\ UiUtils.lstrip l = UiUtils.lstrip r.
Proof.
  destruct l as [|a [|b [|c r3]]]; [by left|..].
  - simpl. destruct (UiUtils.space1 a); [right; exists []; simpl; split; [lia|done]|by left].
  - destruct (UiUtils.space1 a) eqn:H1.
    { right. exists [b]. split; [simpl; lia|]. simpl. by rewrite H1. }
    destruct (UiUtils.space2 a b) eqn:H2.
    { right. exists []. split; [simpl; lia|]. simpl. by rewrite H1, H2. }
    left. simpl. by rewrite H1, H2.
  - destruct (UiUtils.space1 a) eqn:H1.
    { right. exists (b :: c :: r3). split; [simpl; lia|].
      change (UiUtils.lstrip (a :: b :: c :: r3)) with
        (if UiUtils.space1 a then UiUtils.lstrip (b :: c :: r3)
         else if UiUtils.space2 a b then UiUtils.lstrip (c :: r3)
         else if UiUtils.space3 a b c then UiUtils.lstrip r3 else a :: b :: c :: r3).
      by rewrite H1. }
    destruct (UiUtils.space2 a b) eqn:H2.
    { right. exists (c :: r3). split; [simpl; lia|].
      change (UiUtils.lstrip (a :: b :: c :: r3)) with
        (if UiUtils.space1 a then UiUtils.lstrip (b :: c :: r3)
         else if UiUtils.space2 a b then UiUtils.lstrip (c :: r3)
         else if UiUtils.space3 a b c then UiUtils.lstrip r3 else a :: b :: c :: r3).
      by rewrite H1, H2. }
    destruct (UiUtils.space3 a b c) eqn:H3.
    { right. exists r3. split; [simpl; lia|].
      change (UiUtils.lstrip (a :: b :: c :: r3)) with
        (if UiUtils.space1 a then UiUtils.lstrip (b :: c :: r3)
         else if UiUtils.space2 a b then UiUtils.lstrip (c :: r3)
         else if UiUtils.space3 a b c then UiUtils.lstrip r3 else a :: b :: c :: r3).
      by rewrite H1, H2, H3. }
    left.
    change (UiUtils.lstrip (a :: b :: c :: r3)) with
      (if UiUtils.space1 a then UiUtils.lstrip (b :: c :: r3)
       else if UiUtils.space2 a b then UiUtils.lstrip (c :: r3)
       else if UiUtils.space3 a b c then UiUtils.lstrip r3 else a :: b :: c :: r3).
    by rewrite H1, H2, H3.
Qed.

Lemma rstrip_rev_step l :
  UiUtils.rstrip_rev l = l \/
  exists r, (length r < length l)%nat /\ UiUtils.rstrip_rev l = UiUtils.rstrip_rev r.
Proof.
  destruct l as [|a [|b [|c r3]]]; [by left|..].
  - simpl. destruct (UiUtils.space1 a); [right; exists []; simpl; split; [lia|done]|by left].
  - destruct (UiUtils.space1 a) eqn:H1.
    { right. exists [b]. split; [simpl; lia|]. simpl. by rewrite H1. }
    destruct (UiUtils.space2 b a) eqn:H2.
    { right. exists []. split; [simpl; lia|]. simpl. by rewrite H1, H2. }
    left. simpl. by rewrite H1, H2.
  - destruct (UiUtils.space1 a) eqn:H1.
    { right. exists (b :: c :: r3). split; [simpl; lia|].
      change (UiUtils.rstrip_rev (a :: b :: c :: r3)) with
        (if UiUtils.space1 a then UiUtils.rstrip_rev (b :: c :: r3)
         else if UiUtils.space2 b a then UiUtils.rstrip_rev (c :: r3)
         else if UiUtils.space3 c b a then UiUtils.rstrip_rev r3 else a :: b :: c :: r3).
      by rewrite H1. }
    destruct (UiUtils.space2 b a) eqn:H2.
    { right. exists (c :: r3). split; [simpl; lia|].
      change (UiUtils.rstrip_rev (a :: b :: c :: r3)) with
        (if UiUtils.space1 a then UiUtils.rstrip_rev (b :: c :: r3)
         else if UiUtils.space2 b a then UiUtils.rstrip_rev (c :: r3)
         else if UiUtils.space3 c b a then UiUtils.rstrip_rev r3 else a :: b :: c :: r3).
      by rewrite H1, H2. }
    destruct (UiUtils.space3 c b a) eqn:H3.
    { right. exists r3. split; [simpl; lia|].
      change (UiUtils.rstrip_rev (a :: b :: c :: r3)) with
        (if UiUtils.space1 a then UiUtils.rstrip_rev (b :: c :: r3)
         else if UiUtils.space2 b a then UiUtils.rstrip_rev (c :: r3)
         else if UiUtils.space3 c b a then UiUtils.rstrip_rev r3 else a :: b :: c :: r3).
      by rewrite H1, H2, H3. }
    left.
    change (UiUtils.rstrip_rev (a :: b :: c :: r3)) with
      (if UiUtils.space1 a then UiUtils.rstrip_rev (b :: c :: r3)
       else if UiUtils.space2 b a then UiUtils.rstrip_rev (c :: r3)
       else if UiUtils.space3 c b a then UiUtils.rstrip_rev r3 else a :: b :: c :: r3).
    by rewrite H1, H2, H3.
Qed.

(** What is left after stripping has no space in front. *)
Lemma lstrip_idemp l : UiUtils.lstrip (UiUtils.lstrip l) = UiUtils.lstrip l.
Proof.
  enough (forall n l, (length l <= n)%nat ->
            UiUtils.lstrip (UiUtils.lstrip l) = UiUtils.lstrip l)
    as H by (by eapply H).
  clear l. intros n. induction n as [|n IH]; intros l Hl.
  - destruct l; [done|simpl in Hl; lia].
  - destruct (lstrip_step l) as [H|(r & Hr & H)]; rewrite H; [done|].
    apply IH. lia.
Qed.

Lemma rstrip_rev_idemp l :
  UiUtils.rstrip_rev (UiUtils.rstrip_rev l) = UiUtils.rstrip_rev l.
Proof.
  enough (forall n l, (length l <= n)%nat ->
            UiUtils.rstrip_rev (UiUtils.rstrip_rev l) = UiUtils.rstrip_rev l)
    as H by (by eapply H).
  clear l. intros n. induction n as [|n IH]; intros l Hl.
  - destruct l; [done|simpl in Hl; lia].
  - destruct (rstrip_rev_step l) as [H|(r & Hr & H)]; rewrite H; [done|].
    apply IH. lia.
Qed.

Lemma lstrip_clean l : UiUtils.lstrip l = l <-> starts_clean l = true.
Proof.
  destruct l as [|a r1]; [done|].
  assert (UiUtils.lstrip (a :: r1) =
          if UiUtils.space1 a then UiUtils.lstrip r1
          else match r1 with
               | [] => a :: r1
               | b :: r2 =>
                   if UiUtils.space2 a b then UiUtils.lstrip r2
                   else match r2 with
                        | [] => a :: r1
                        | c :: r3 =>
                            if UiUtils.space3 a b c then UiUtils.lstrip r3 else a :: r1
                        end
               end) as -> by done.
  cbn [starts_clean].
  destruct (UiUtils.space1 a).
  { split; [|done]. intros H. pose proof (lstrip_length r1) as Hlen.
    rewrite H in Hlen. simpl in Hlen. lia. }
  destruct r1 as [|b r2]; [done|].
  destruct (UiUtils.space2 a b).
  { split; [|done]. intros H. pose proof (lstrip_length r2) as Hlen.
    rewrite H in Hlen. simpl in Hlen. lia. }
  destruct r2 as [|c r3]; [done|].
  destruct (UiUtils.space3 a b c); [|done].
  split; [|done]. intros H. pose proof (lstrip_length r3) as Hlen.
  rewrite H in Hlen. simpl in Hlen. lia.
Qed.

(** Cutting a text short on the right does not bring a space to its
    front. *)
Lemma lstrip_prefix x y :
  UiUtils.lstrip x = x -> y `prefix_of` x -> UiUtils.lstrip y = y.
Proof.
  rewrite !lstrip_clean. intros Hx [z ->].
  destruct y as [|a [|b [|c y3]]]; [done|..]; simpl in *.
  - apply andb_true_iff in Hx as [-> _]. done.
  - apply andb_true_iff in Hx as [-> Hx]. destruct z; [done|].
    apply andb_true_iff in Hx as [-> _]. done.
  - apply andb_true_iff in Hx as [-> Hx].
    apply andb_true_iff in Hx as [-> Hx]. done.
Qed.

(** A stripped text has no space left at either end: stripping it again
    changes nothing. *)
Lemma strip_idemp s : UiUtils.strip (UiUtils.strip s) = UiUtils.strip s.
Proof.
  unfold UiUtils.strip. rewrite list_ascii_of_string_of_list_ascii.
  set (x := UiUtils.lstrip (list_ascii_of_string s)).
  assert (UiUtils.lstrip (rev (UiUtils.rstrip_rev (rev x)))
          = rev (UiUtils.rstrip_rev (rev x))) as ->.
  { apply (lstrip_prefix x); [apply lstrip_idemp|].
    destruct (rstrip_rev_suffix (rev x)) as [pre Hpre].
    exists (rev pre). rewrite <- rev_app_distr, <- Hpre. by rewrite rev_involutive. }
  by rewrite rev_involutive, rstrip_rev_idemp.
Qed.

Lemma extend_all_Ok cells names :
  UiUtils.extend_all cells = Ok names ->
  exists texts,
    cells = VStr <$> texts /\
    names = concat ((fun s => UiUtils.strip <$> UiUtils.split_comma s) <$> texts).
Proof.
  revert names. induction cells as [|v cells IH]; intros names H; simpl in H.
  - injection H as <-. by exists [].
  - apply obind_Ok in H as (ns & Hns & H).
    apply obind_Ok in H as (more & Hmore & H). injection H as <-.
    destruct v as [| | | |s]; try done. injection Hns as <-.
    destruct (IH _ Hmore) as (texts & -> & ->). by exists (s :: texts).
Qed.

Lemma dropna_texts (f : row -> value) rows texts :
  UiUtils.dropna (f <$> rows) = VStr <$> texts ->
  omap (fun r => match f r with VStr s => Some s | _ => None end) rows = texts.
Proof.
  revert texts. induction rows as [|r rows IH]; intros texts H.
  - by destruct texts.
  - unfold UiUtils.dropna in *. simpl in H. rewrite filter_cons in H. simpl.
    destruct (f r) as [| | | |s] eqn:Hr; simpl in H.
    + by apply IH.
    + destruct texts; done.
    + destruct texts; done.
    + by apply IH.
    + destruct texts as [|s' texts]; [done|]. simpl in H.
      injection H as -> H. f_equal. by apply IH.
Qed.

(** The rule names that [plot_fraud_by_rule] counts.  They come from the
    rules_triggered texts of the rows whose fraud_detected equals 1, text
    by text and piece by piece; rows with a missing rules value give
    none.  Each text gives one name more than it has commas, so an empty
    text gives one empty name.  No name holds a comma, and none begins or
    ends with a space: stripping it again leaves it as it is. *)
Theorem all_rules_names df names :
  UiUtils.all_rules df = Ok names ->
  names = concat ((fun s => UiUtils.strip <$> UiUtils.split_comma s) <$> rule_texts df) /\
  length names = sum_list ((fun s => S (commas s)) <$> rule_texts df) /\
  Forall (fun name => commas name = 0%nat /\ UiUtils.strip name = name) names /\
  (EmptyString ∈ rule_texts df -> EmptyString ∈ names).
Proof.
  unfold UiUtils.all_rules. intros H.
  apply obind_Ok in H as (fdf & Hfdf & H).
  apply where_one_Ok in Hfdf as (_ & _ & Hrec).
  apply obind_Ok in H as (cells & Hcells & H).
  apply column_Ok in Hcells as [_ ->]. rewrite Hrec in H.
  apply extend_all_Ok in H as (texts & Htexts & ->).
  apply dropna_texts in Htexts. fold (flagged_rows df) in Htexts.
  fold (rule_texts df) in Htexts. subst texts.
  split; [done|]. split; [|split].
  - induction (rule_texts df) as [|s l IH]; [done|].
    rewrite !fmap_cons. cbn [concat sum_list_with].
    by rewrite length_app, length_fmap, split_comma_length, IH.
  - apply Forall_concat, Forall_fmap, Forall_forall. intros s _.
    apply Forall_fmap. eapply Forall_impl; [apply split_comma_no_comma|].
    intros p Hp. simpl. split; [|apply strip_idemp].
    pose proof (strip_commas p) as Hle. simpl in Hp. rewrite Hp in Hle. lia.
  - intros Hin. apply list_elem_of_In, in_concat. exists [EmptyString].
    split; [|by left]. apply list_elem_of_In, list_elem_of_fmap. by exists EmptyString.
Qed.

Lemma all_rules_names_witness :
  UiUtils.all_rules sample_frame = Ok ["high_amount"; "duplicate_billing"].
Proof.
  destruct (UiUtils.all_rules sample_frame) as [names| |] eqn:H;
    [|vm_compute in H; discriminate..].
  destruct (all_rules_names _ _ H) as (-> & _). vm_compute. reflexivity.
Defined.

Lemma extend_all_raises cells v :
  v ∈ cells -> (forall s, v <> VStr s) ->
  UiUtils.extend_all cells = Raise AttributeError.
Proof.
  intros Hin Hv. induction cells as [|w cells IH]; [by apply elem_of_nil in Hin|].
  apply elem_of_cons in Hin as [<-|Hin]; simpl.
  - destruct v; try done. by destruct (Hv s).
  - rewrite (IH Hin). by destruct w.
Qed.

(** How the rule names fail and what they are on nothing.  A frame
    without the column fraud_detected raises KeyError for it, one with it
    and without rules_triggered raises KeyError for that.  With both
    columns and no row whose fraud_detected equals 1 there are no names.
    A number in the rules column of such a row raises AttributeError: it
    is not missing, so it is not dropped, and it has no [split]. *)
Theorem all_rules_edges df :
  ("fraud_detected" ∉ UiUtils.columns df ->
   UiUtils.all_rules df = Raise (KeyError "fraud_detected")) /\
  ("fraud_detected" ∈ UiUtils.columns df -> "rules_triggered" ∉ UiUtils.columns df ->
   UiUtils.all_rules df = Raise (KeyError "rules_triggered")) /\
  ("fraud_detected" ∈ UiUtils.columns df -> "rules_triggered" ∈ UiUtils.columns df ->
   flagged_rows df = [] -> UiUtils.all_rules df = Ok []) /\
  (forall r, "fraud_detected" ∈ UiUtils.columns df ->
   "rules_triggered" ∈ UiUtils.columns df ->
   r ∈ flagged_rows df ->
   numeric (get r "rules_triggered" VNaN) = true ->
   get r "rules_triggered" VNaN <> VNaN ->
   UiUtils.all_rules df = Raise AttributeError).
Proof.
  unfold UiUtils.all_rules, UiUtils.where_one, UiUtils.column.
  split; [|split; [|split]].
  - intros Hno. by rewrite bool_decide_eq_false_2.
  - intros Hfd Hno. rewrite (bool_decide_eq_true_2 _ Hfd). simpl.
    by rewrite bool_decide_eq_false_2.
  - intros Hfd Hrt Hnone. rewrite (bool_decide_eq_true_2 _ Hfd). simpl.
    rewrite (bool_decide_eq_true_2 _ Hrt). simpl.
    fold (flagged_rows df). by rewrite Hnone.
  - intros r Hfd Hrt Hin Hnum Hnan. rewrite (bool_decide_eq_true_2 _ Hfd). simpl.
    rewrite (bool_decide_eq_true_2 _ Hrt). simpl. fold (flagged_rows df).
    apply (extend_all_raises _ (get r "rules_triggered" VNaN)).
    + unfold UiUtils.dropna. apply list_elem_of_filter. split.
      * by destruct (get r "rules_triggered" VNaN).
      * apply list_elem_of_fmap. by exists r.
    + intros s Hs. by rewrite Hs in Hnum.
Qed.

Lemma all_rules_edges_witness :
  UiUtils.all_rules
    {| UiUtils.columns := ["fraud_detected"; "rules_triggered"];
       UiUtils.records :=
         [ {[ "fraud_detected" := VInt 1; "rules_triggered" := VInt 7 ]} ] |}
    = Raise AttributeError.
Proof.
  apply (proj2 (proj2 (proj2 (all_rules_edges _)))
           {[ "fraud_detected" := VInt 1; "rules_triggered" := VInt 7 ]});
    try set_solver; try (vm_compute; discriminate); try (vm_compute; reflexivity).
Defined.

(** * The explanation prompt *)


